(** * A model of the investment back end of [src/backend/index.js]

    The Express server keeps a PostgreSQL database [onblock] with a table
    [dashboard] (one row expected) and a table [assets].  This file embeds
    the bootstrap ([ensureDatabaseExists], [createTablesQuery], [seedData],
    [initDB]) and the [POST /invest] handler.

    Modelling choices:
    - a [DECIMAL(p, 2)] column is held as a [Z] counting hundredths, an
      [INTEGER] column as a [Z];
    - a JavaScript number is a rational [Q] ([jsnum := option Q], [None]
      standing for [NaN]); floating-point rounding is not modelled;
    - a request body field is a JSON number, boolean, [null] or missing
      ([jsval]) in the first model, the one most statements are about; a
      second model ([f_invest]) takes every JSON value, strings, arrays and
      objects included, and the PostgreSQL major version, and agrees with
      the first on the values of [jsval] ([f_invest_embed]);
    - node-postgres returns [DECIMAL] columns as strings (read back with
      [parseFloat] or by the implicit conversion of [*]) and [INTEGER]
      columns as numbers;
    - a failing store call is given by a fault table [Fault] naming, per
      query of the handler, the error it raises (if any);
    - the handler's promise, when rejected, is answered by Express itself:
      nothing under Express 4, a 500 under Express 5 ([served]); the
      repository pins no version. *)

From Stdlib Require Import ZArith QArith Qround Lqa List String Bool Lia.
From Stdlib Require Import Sorted Permutation Ascii NArith.
Import ListNotations.
Open Scope string_scope.

(** ** Rows of the two tables *)

Record Asset := mkAsset {
  a_id : Z;                  (* id SERIAL PRIMARY KEY *)
  a_name : string;
  a_location : string;
  a_apy : Z;                 (* DECIMAL(5, 2), in hundredths *)
  a_price_per_token : Z;     (* DECIMAL(15, 2), in hundredths *)
  a_tokens_available : Z     (* INTEGER NOT NULL *)
}.

Record Dashboard := mkDashboard {
  d_id : Z;                  (* id SERIAL PRIMARY KEY *)
  d_wallet_balance : Z;      (* DECIMAL(15, 2), in hundredths *)
  d_total_investment : Z;    (* DECIMAL(15, 2), in hundredths *)
  d_monthly_yield : Z        (* DECIMAL(15, 2), in hundredths *)
}.

(** The contents of database [onblock] seen by the handler. *)
Record DB := mkDB {
  dashboards : list Dashboard;
  assets : list Asset
}.

(** ** JavaScript values and numbers *)

(** A request field that is a JSON number, boolean, [null] or missing.
    [express.json()] also delivers strings, arrays and objects: those are
    values of [jvalue] below, handled by [f_invest]. *)
Inductive jsval :=
| JUndef
| JNull
| JBool (b : bool)
| JNum (q : Q).

Definition jsnum := option Q.

(** [ToNumber]. *)
Definition to_number (v : jsval) : jsnum :=
  match v with
  | JUndef => None
  | JNull => Some 0%Q
  | JBool b => Some (if b then 1%Q else 0%Q)
  | JNum q => Some q
  end.

(** [ToBoolean], the test behind [!v]. *)
Definition truthy (v : jsval) : bool :=
  match v with
  | JUndef | JNull => false
  | JBool b => b
  | JNum q => negb (Qeq_bool q 0)
  end.

Definition js_lt (x y : jsnum) : bool :=
  match x, y with
  | Some a, Some b => negb (Qle_bool b a)
  | _, _ => false
  end.

Definition js_le (x y : jsnum) : bool :=
  match x, y with
  | Some a, Some b => Qle_bool a b
  | _, _ => false
  end.

Definition js_add (x y : jsnum) : jsnum :=
  match x, y with Some a, Some b => Some (a + b)%Q | _, _ => None end.

Definition js_sub (x y : jsnum) : jsnum :=
  match x, y with Some a, Some b => Some (a - b)%Q | _, _ => None end.

Definition js_mul (x y : jsnum) : jsnum :=
  match x, y with Some a, Some b => Some (a * b)%Q | _, _ => None end.

(** Division; the handler only divides by the literals [100] and [12]. *)
Definition js_div (x y : jsnum) : jsnum :=
  match x, y with Some a, Some b => Some (a / b)%Q | _, _ => None end.

(** [parseFloat] of a [DECIMAL(p, 2)] value returned as a string. *)
Definition dec2 (c : Z) : Q := Qmake c 100.

(** ** Store-side conversions of query parameters *)

Definition INT4_MIN : Z := - 2 ^ 31.
Definition INT4_MAX : Z := 2 ^ 31 - 1.

(** The errors of PostgreSQL's input and storage checks, without the
    offending value it appends (as in [invalid input syntax for type
    integer: "1.5"]). *)
Definition msg_int_syntax := "invalid input syntax for type integer".
Definition msg_int_range := "value out of range for type integer".
Definition msg_int_null := "null value in column tokens_available violates not-null constraint".
Definition msg_numeric_overflow := "numeric field overflow".

(** A parameter bound to an [INTEGER] placeholder: node-postgres sends
    [undefined] and [null] as SQL NULL, a boolean as the text [true] or
    [false] and a number as [String(n)] (exponent notation from [1e21]);
    PostgreSQL parses that text as an [int4]. *)
Inductive param :=
| PNull
| PInt (z : Z)
| PBad (msg : string).

Definition pg_int4 (v : jsval) : param :=
  match v with
  | JUndef | JNull => PNull
  | JBool _ => PBad msg_int_syntax
  | JNum q =>
      let n := Qnum q in
      let d := Zpos (Qden q) in
      if (n mod d =? 0)%Z then
        let z := (n / d)%Z in
        if (INT4_MIN <=? z)%Z && (z <=? INT4_MAX)%Z then PInt z
        else if (10 ^ 21 <=? Z.abs z)%Z then PBad msg_int_syntax
        else PBad msg_int_range
      else PBad msg_int_syntax
  end.

(** Rounding of a number to the scale 2 of a [DECIMAL(15, 2)] column:
    half away from zero, the result in hundredths. *)
Definition to_cents (x : Q) : Z :=
  if Qle_bool 0 x then Qfloor (x * 100 + (1 # 2))%Q
  else (- Qfloor (- x * 100 + (1 # 2))%Q)%Z.

(** Storing a number into a [DECIMAL(15, 2)] column: at most 13 digits
    before the point.  PostgreSQL stores the text [NaN] in such a column
    ([pg_numeric_v] below); in this model the handler never passes [NaN]
    here, since a [jsval] that passes the input check converts to a number,
    and this branch only keeps the function total. *)
Definition pg_numeric_15_2 (x : jsnum) : option Z :=
  match x with
  | Some q =>
      let c := to_cents q in
      if (Z.abs c <? 10 ^ 15)%Z then Some c else None
  | None => None
  end.

(** ** The queries of the handler and their faults *)

Inductive QueryKind :=
| QConnect      (* pool.connect() *)
| QBegin        (* BEGIN *)
| QSelAsset     (* SELECT * FROM assets WHERE id = $1 *)
| QSelDash      (* SELECT * FROM dashboard LIMIT 1 *)
| QUpdAsset     (* UPDATE assets SET tokens_available = ... *)
| QUpdDash      (* UPDATE dashboard SET wallet_balance = ... *)
| QCommit       (* COMMIT *)
| QRollback.    (* ROLLBACK *)

(** Which store call fails, and with which error message. *)
Definition Fault := QueryKind -> option string.

Definition no_fault : Fault := fun _ => None.

(** ** A transaction: state passing over the transaction's view of the
    database, with exceptions carrying the [Error] message *)

Inductive outcome (A : Type) :=
| Done (a : A) (db : DB)
| Thrown (msg : string).
Arguments Done {A} a db.
Arguments Thrown {A} msg.

Definition tx (A : Type) := DB -> outcome A.

Definition ret {A} (a : A) : tx A := fun db => Done a db.

Definition bind {A B} (m : tx A) (k : A -> tx B) : tx B :=
  fun db => match m db with
            | Done a db' => k a db'
            | Thrown e => Thrown e
            end.

Definition throw {A} (msg : string) : tx A := fun _ => Thrown msg.

Notation "x <- m ;; k" := (bind m (fun x => k))
  (at level 61, m at next level, right associativity).
Notation "m ;;; k" := (bind m (fun _ => k))
  (at level 61, right associativity).

(** Every query first consults the fault table. *)
Definition query {A} (flt : Fault) (k : QueryKind) (run : tx A) : tx A :=
  fun db => match flt k with
            | Some e => Thrown e
            | None => run db
            end.

Definition q_begin (flt : Fault) : tx unit := query flt QBegin (ret tt).

(** [SELECT * FROM assets WHERE id = $1] (a NULL id matches no row). *)
Definition q_select_asset (flt : Fault) (p : param) : tx (list Asset) :=
  query flt QSelAsset (fun db =>
    match p with
    | PBad e => Thrown e
    | PNull => Done [] db
    | PInt id => Done (filter (fun a => (a_id a =? id)%Z) (assets db)) db
    end).

(** [SELECT * FROM dashboard LIMIT 1].  Without [ORDER BY] PostgreSQL
    returns the first row of its scan, modelled as the first row of the
    list; with several rows that choice may differ between two queries
    (an [UPDATE] writes a new row version elsewhere in the heap), so the
    statements that relate two reads assume a single row. *)
Definition q_select_dash (flt : Fault) : tx (list Dashboard) :=
  query flt QSelDash (fun db => Done (firstn 1 (dashboards db)) db).

Definition sub_tokens (t : Z) (a : Asset) : Asset :=
  mkAsset (a_id a) (a_name a) (a_location a) (a_apy a) (a_price_per_token a)
          (a_tokens_available a - t).

(** The rows after [SET tokens_available = tokens_available - t
    WHERE id = id]. *)
Definition upd_asset_rows (t id : Z) (rows : list Asset) : list Asset :=
  map (fun a => if (a_id a =? id)%Z then sub_tokens t a else a) rows.

(** The [INTEGER] range check of a stored [tokens_available]. *)
Definition int4_tokens (a : Asset) : bool :=
  (INT4_MIN <=? a_tokens_available a)%Z && (a_tokens_available a <=? INT4_MAX)%Z.

(** [UPDATE assets SET tokens_available = tokens_available - $1
    WHERE id = $2]. *)
Definition q_update_asset (flt : Fault) (p1 p2 : param) : tx unit :=
  query flt QUpdAsset (fun db =>
    match p1, p2 with
    | PBad e, _ => Thrown e
    | _, PBad e => Thrown e
    | _, PNull => Done tt db
    | PNull, PInt id =>
        if existsb (fun a => (a_id a =? id)%Z) (assets db)
        then Thrown msg_int_null else Done tt db
    | PInt t, PInt id =>
        let rows := upd_asset_rows t id (assets db) in
        if forallb int4_tokens rows
        then Done tt (mkDB (dashboards db) rows)
        else Thrown msg_int_range
    end).

(** The rows after [SET wallet_balance = w, total_investment = t,
    monthly_yield = m WHERE id = id]. *)
Definition upd_dash_rows (w t m id : Z) (rows : list Dashboard) : list Dashboard :=
  map (fun d => if (d_id d =? id)%Z then mkDashboard (d_id d) w t m else d) rows.

(** [UPDATE dashboard SET wallet_balance = $1, total_investment = $2,
    monthly_yield = $3 WHERE id = $4]. *)
Definition q_update_dash (flt : Fault) (w t m : jsnum) (id : Z) : tx unit :=
  query flt QUpdDash (fun db =>
    match pg_numeric_15_2 w, pg_numeric_15_2 t, pg_numeric_15_2 m with
    | Some w', Some t', Some m' =>
        Done tt (mkDB (upd_dash_rows w' t' m' id (dashboards db)) (assets db))
    | _, _, _ => Thrown msg_numeric_overflow
    end).

Definition q_commit (flt : Fault) : tx unit := query flt QCommit (ret tt).

(** ** The [POST /invest] handler *)

Definition msg_valid := "Valid assetId and tokensToBuy are required".
Definition msg_asset_not_found := "Asset not found".
Definition msg_tokens := "Not enough tokens available in this asset".
Definition msg_balance := "Insufficient wallet balance to complete transaction".
(** The [TypeError] of [dashboard.wallet_balance] when [dashboard] is
    [undefined]. *)
Definition msg_no_dashboard :=
  "Cannot read properties of undefined (reading 'wallet_balance')".

(** The [try] block, from [BEGIN] to [COMMIT]; it returns
    [(totalCost, newWalletBalance, newTotalInvestment, newMonthlyYield)]. *)
Definition invest_tx (flt : Fault) (assetId tokensToBuy : jsval)
  : tx (jsnum * jsnum * jsnum * jsnum) :=
  q_begin flt ;;;
  assetRes <- q_select_asset flt (pg_int4 assetId) ;;
  match assetRes with
  | [] => throw msg_asset_not_found
  | asset :: _ =>
    if js_lt (Some (inject_Z (a_tokens_available asset))) (to_number tokensToBuy)
    then throw msg_tokens
    else
    let totalCost := js_mul (Some (dec2 (a_price_per_token asset)))
                            (to_number tokensToBuy) in
    dashRes <- q_select_dash flt ;;
    match dashRes with
    | [] => throw msg_no_dashboard
    | dashboard :: _ =>
      if js_lt (Some (dec2 (d_wallet_balance dashboard))) totalCost
      then throw msg_balance
      else
      q_update_asset flt (pg_int4 tokensToBuy) (pg_int4 assetId) ;;;
      let newTotalInvestment :=
        js_add (Some (dec2 (d_total_investment dashboard))) totalCost in
      let newWalletBalance :=
        js_sub (Some (dec2 (d_wallet_balance dashboard))) totalCost in
      let addedMonthlyYield :=
        js_div (js_mul totalCost (js_div (Some (dec2 (a_apy asset))) (Some 100%Q)))
               (Some 12%Q) in
      let newMonthlyYield :=
        js_add (Some (dec2 (d_monthly_yield dashboard))) addedMonthlyYield in
      q_update_dash flt newWalletBalance newTotalInvestment newMonthlyYield
                    (d_id dashboard) ;;;
      q_commit flt ;;;
      ret (totalCost, newWalletBalance, newTotalInvestment, newMonthlyYield)
    end
  end.

Inductive body :=
| BError (error : string)
| BSuccess (spent remainingBalance newTotalInvestment newMonthlyYield : jsnum).

Record response := mkResponse { status : Z; rbody : body }.

(** The input check of the handler: [!assetId || !tokensToBuy ||
    tokensToBuy <= 0]. *)
Definition invalid_input (assetId tokensToBuy : jsval) : bool :=
  negb (truthy assetId) || negb (truthy tokensToBuy)
  || js_le (to_number tokensToBuy) (Some 0%Q).

(** The handler: the response it sends ([None] when it sends none because
    its promise is rejected: a failing [pool.connect()] before the [try], or
    a failing [ROLLBACK] inside the [catch]) and the committed database.  A
    thrown transaction leaves the committed database as it was. *)
Definition invest (flt : Fault) (assetId tokensToBuy : jsval) (db : DB)
  : option response * DB :=
  if invalid_input assetId tokensToBuy
  then (Some (mkResponse 400 (BError msg_valid)), db)
  else
    match flt QConnect with
    | Some _ => (None, db)
    | None =>
      match invest_tx flt assetId tokensToBuy db with
      | Done (spent, remaining, total, monthly) db' =>
          (Some (mkResponse 200 (BSuccess spent remaining total monthly)), db')
      | Thrown e =>
          match flt QRollback with
          | None => (Some (mkResponse 400 (BError e)), db)
          | Some _ => (None, db)
          end
      end
    end.

(** The Express major version serving the app. *)
Inductive express_version := Express4 | Express5.

(** The status the client receives, given the status the handler sends
    ([None]: its promise is rejected).  Express 4 ignores the promise a
    handler returns: the request stays unanswered (and on Node.js 15 or
    later the unhandled rejection ends the process).  Express 5 passes the
    rejection to its default error handler, which answers 500. *)
Definition served (v : express_version) (sent : option Z) : option Z :=
  match sent with
  | Some s => Some s
  | None => match v with Express4 => None | Express5 => Some 500%Z end
  end.

(** The spec's scenario: the seeded dashboard and the first seeded asset. *)
Definition scenario_db : DB :=
  mkDB [mkDashboard 1 1500000 520000 43550]
       [mkAsset 1 "Skyline Apartments" "New York, NY" 850 5000 1000].

(** ** Bootstrap: [ensureDatabaseExists], [createTablesQuery], [seedData] *)

(** The PostgreSQL cluster as the bootstrap sees it: whether database
    [onblock] exists, its two tables (absent or their rows) and the last
    values handed out by the two [SERIAL] sequences. *)
Record Cluster := mkCluster {
  onblock_exists : bool;
  dash_tbl : option (list Dashboard);
  asset_tbl : option (list Asset);
  dash_seq : Z;
  asset_seq : Z
}.

(** No database [onblock] yet. *)
Definition fresh_cluster : Cluster := mkCluster false None None 0 0.

(** [CREATE DATABASE onblock] when [pg_database] has no row for it. *)
Definition ensureDatabaseExists (c : Cluster) : Cluster :=
  if onblock_exists c then c
  else mkCluster true (dash_tbl c) (asset_tbl c) (dash_seq c) (asset_seq c).

(** [CREATE TABLE IF NOT EXISTS] for both tables; a missing database makes
    the query fail, and [initDB] only logs the error. *)
Definition createTables (c : Cluster) : Cluster :=
  if onblock_exists c then
    mkCluster true
      (match dash_tbl c with Some ds => Some ds | None => Some [] end)
      (match asset_tbl c with Some as_ => Some as_ | None => Some [] end)
      (match dash_tbl c with Some _ => dash_seq c | None => 0%Z end)
      (match asset_tbl c with Some _ => asset_seq c | None => 0%Z end)
  else c.

(** [INSERT INTO dashboard (wallet_balance, total_investment, monthly_yield)
    VALUES (15000.00, 5200.00, 435.50)]. *)
Definition insert_seed_dashboard (c : Cluster) (ds : list Dashboard) : Cluster :=
  let id := (dash_seq c + 1)%Z in
  mkCluster (onblock_exists c) (Some (ds ++ [mkDashboard id 1500000 520000 43550])%list)
            (asset_tbl c) id (asset_seq c).

(** The rows of [dummyAssets]: name, location, apy, price, tokens. *)
Definition dummyAssets : list (string * string * Z * Z * Z) :=
  [ ("Skyline Apartments", "New York, NY", 850, 5000, 1000);
    ("Ocean View Villa", "Miami, FL", 1200, 15000, 500);
    ("Mountain Retreat", "Aspen, CO", 1020, 7500, 800);
    ("Downtown Office", "Chicago, IL", 980, 12000, 1200) ]%Z.

(** One [INSERT INTO assets ... VALUES ($1, $2, $3, $4, $5)]. *)
Definition insert_asset (c : Cluster) (row : string * string * Z * Z * Z)
  : Cluster :=
  let '(name, location, apy, price, tokens) := row in
  let id := (asset_seq c + 1)%Z in
  let rows := match asset_tbl c with Some as_ => as_ | None => [] end in
  mkCluster (onblock_exists c) (dash_tbl c)
            (Some (rows ++ [mkAsset id name location apy price tokens])%list)
            (dash_seq c) id.

(** [seedData]: both checks run in one [try]; a failing row count on the
    dashboard table skips the rest. *)
Definition seedData (c : Cluster) : Cluster :=
  match dash_tbl c with
  | None => c
  | Some ds =>
    let c1 := match ds with
              | [] => insert_seed_dashboard c ds
              | _ :: _ => c
              end in
    match asset_tbl c1 with
    | None => c1
    | Some [] => fold_left insert_asset dummyAssets c1
    | Some (_ :: _) => c1
    end
  end.

Definition initDB (c : Cluster) : Cluster :=
  seedData (createTables (ensureDatabaseExists c)).

(** What one successful bootstrap of a fresh cluster leaves. *)
Definition seeded_dashboards : list Dashboard :=
  [mkDashboard 1 1500000 520000 43550].

Definition seeded_assets : list Asset :=
  [ mkAsset 1 "Skyline Apartments" "New York, NY" 850 5000 1000;
    mkAsset 2 "Ocean View Villa" "Miami, FL" 1200 15000 500;
    mkAsset 3 "Mountain Retreat" "Aspen, CO" 1020 7500 800;
    mkAsset 4 "Downtown Office" "Chicago, IL" 980 12000 1200 ].

(** ** Lookups used to state properties *)

Definition find_asset (db : DB) (id : Z) : option Asset :=
  find (fun a => (a_id a =? id)%Z) (assets db).

Definition first_dashboard (db : DB) : option Dashboard :=
  hd_error (dashboards db).

(** A sequence of [POST /invest] requests served one after the other. *)
Fixpoint run_invests (reqs : list (Fault * jsval * jsval)) (db : DB) : DB :=
  match reqs with
  | [] => db
  | (flt, a, t) :: rest => run_invests rest (snd (invest flt a t db))
  end.


(** The columns of an asset that no query of the server writes. *)
Definition asset_static (a : Asset) : Z * string * string * Z * Z :=
  (a_id a, a_name a, a_location a, a_apy a, a_price_per_token a).

(** ** The two read endpoints *)

Inductive get_body :=
| GDashboard (row : option Dashboard)  (* [None] is the empty object [{}] *)
| GAssets (rows : list Asset)
| GFailed (error details : string).

Record get_response := mkGetResponse { g_status : Z; g_body : get_body }.

Definition msg_query_failed := "Database query failed".

(** [GET /dashboard]: [SELECT * FROM dashboard LIMIT 1], answered with
    [result.rows[0] || {}]; a failing query (its message in [flt]) is
    answered with 500.  The row chosen is the first of the list, as in
    [q_select_dash]. *)
Definition get_dashboard (flt : option string) (db : DB) : get_response :=
  match flt with
  | Some e => mkGetResponse 500 (GFailed msg_query_failed e)
  | None => mkGetResponse 200 (GDashboard (hd_error (firstn 1 (dashboards db))))
  end.

(** [ORDER BY id ASC], as an insertion sort on [id]. *)
Fixpoint insert_by_id (a : Asset) (rows : list Asset) : list Asset :=
  match rows with
  | [] => [a]
  | b :: rows' => if (a_id a <=? a_id b)%Z then a :: rows else b :: insert_by_id a rows'
  end.

Fixpoint sort_by_id (rows : list Asset) : list Asset :=
  match rows with
  | [] => []
  | a :: rows' => insert_by_id a (sort_by_id rows')
  end.

(** [GET /assets]: [SELECT * FROM assets ORDER BY id ASC], answered
    with [result.rows]; a failing query is answered with 500. *)
Definition get_assets (flt : option string) (db : DB) : get_response :=
  match flt with
  | Some e => mkGetResponse 500 (GFailed msg_query_failed e)
  | None => mkGetResponse 200 (GAssets (sort_by_id (assets db)))
  end.

(** ** The bootstrap with failing queries *)

(** The queries of [initDB] after [ensureDatabaseExists] (which catches its
    own errors); [BInsertAsset i] is the insert of [dummyAssets[i]]. *)
Inductive BootStep :=
| BCreateTables
| BCountDash
| BInsertDash
| BCountAssets
| BInsertAsset (i : nat).

(** Where a failing [INSERT] fails: before the [SERIAL] default has called
    [nextval] (the statement never runs, e.g. the connection is lost) or
    after it (the row is not written, e.g. a statement timeout or a full
    disk).  [nextval] is never rolled back, so in the second case the
    sequence value stays consumed although no row is inserted. *)
Inductive FailAt := BeforeNextval | AfterNextval.

(** Which of these queries fail, and where. *)
Definition BootFault := BootStep -> option FailAt.

Definition boot_step_eqb (s s' : BootStep) : bool :=
  match s, s' with
  | BCreateTables, BCreateTables | BCountDash, BCountDash
  | BInsertDash, BInsertDash | BCountAssets, BCountAssets => true
  | BInsertAsset i, BInsertAsset j => Nat.eqb i j
  | _, _ => false
  end.

(** Exactly one query fails, at [k]. *)
Definition fails_at (s : BootStep) (k : FailAt) : BootFault :=
  fun s' => if boot_step_eqb s s' then Some k else None.

(** The sequence values a failing insert consumed. *)
Definition bump_dash_seq (k : FailAt) (c : Cluster) : Cluster :=
  match k with
  | BeforeNextval => c
  | AfterNextval =>
      mkCluster (onblock_exists c) (dash_tbl c) (asset_tbl c) (dash_seq c + 1) (asset_seq c)
  end.

Definition bump_asset_seq (k : FailAt) (c : Cluster) : Cluster :=
  match k with
  | BeforeNextval => c
  | AfterNextval =>
      mkCluster (onblock_exists c) (dash_tbl c) (asset_tbl c) (dash_seq c) (asset_seq c + 1)
  end.

(** The [for ... of dummyAssets] loop: each insert commits on its own, a
    failing insert throws out of the loop. *)
Fixpoint insert_assets_f (bf : BootFault) (i : nat)
  (rows : list (string * string * Z * Z * Z)) (c : Cluster) : Cluster :=
  match rows with
  | [] => c
  | row :: rest =>
      match bf (BInsertAsset i) with
      | Some k => bump_asset_seq k c
      | None => insert_assets_f bf (S i) rest (insert_asset c row)
      end
  end.

(** [seedData] with failing queries: any failure ends the single [try]. *)
Definition seedData_f (bf : BootFault) (c : Cluster) : Cluster :=
  match dash_tbl c with
  | None => c
  | Some ds =>
    match bf BCountDash with
    | Some _ => c
    | None =>
      let c1 := match ds with
                | [] => match bf BInsertDash with
                        | Some k => inl (bump_dash_seq k c)
                        | None => inr (insert_seed_dashboard c ds)
                        end
                | _ :: _ => inr c
                end in
      match c1 with
      | inl c' => c'
      | inr c1 =>
        match asset_tbl c1 with
        | None => c1
        | Some rows =>
          match bf BCountAssets with
          | Some _ => c1
          | None =>
            match rows with
            | [] => insert_assets_f bf 0 dummyAssets c1
            | _ :: _ => c1
            end
          end
        end
      end
    end
  end.

(** [initDB] with failing queries: the two [CREATE TABLE] statements are
    one query string, run in one implicit transaction, so a failure creates
    neither table; it throws out of [initDB]'s [try] before [seedData]. *)
Definition initDB_f (bf : BootFault) (c : Cluster) : Cluster :=
  let c0 := ensureDatabaseExists c in
  match bf BCreateTables with
  | Some _ => c0
  | None => seedData_f bf (createTables c0)
  end.

(** The cluster a bootstrap seeds when the dashboard sequence has already
    handed out [dd] values and the asset sequence [da]: the rows of
    [seeded_dashboards] and [seeded_assets] with their ids shifted. *)
Definition shift_dash (n : Z) (d : Dashboard) : Dashboard :=
  mkDashboard (d_id d + n) (d_wallet_balance d) (d_total_investment d) (d_monthly_yield d).

Definition shift_asset (n : Z) (a : Asset) : Asset :=
  mkAsset (a_id a + n) (a_name a) (a_location a) (a_apy a) (a_price_per_token a)
          (a_tokens_available a).

Definition seeded_cluster_from (dd da : Z) : Cluster :=
  mkCluster true (Some (map (shift_dash dd) seeded_dashboards))
            (Some (map (shift_asset da) seeded_assets)) (1 + dd) (4 + da).

(** ** The handler on every JSON body

    [jsval] covers the request fields that are numbers, booleans, [null]
    or missing.  [express.json()] also delivers strings, arrays and
    objects.  On a string, JavaScript's [Number] and PostgreSQL's
    [INTEGER] input can disagree: from version 16 on, PostgreSQL reads
    ["1_000"] as 1000 (and accepts the prefixes [0x], [0o] and [0b]),
    where [Number] gives [NaN]; a [NaN] then reaches the [DECIMAL] columns,
    which store it.  This part embeds the handler over every JSON value,
    with [NaN] in the [DECIMAL] columns of the dashboard and the PostgreSQL
    major version as a parameter ([pg16]: version 16 or later). *)

(** A JavaScript number: [NaN], a finite value (an exact rational, as in
    [jsnum]) or an infinity ([Inf true] is [-Infinity]); zero is [+0]. *)
Inductive num :=
| NaN
| Fin (q : Q)
| Inf (neg : bool).

Definition num_lt (x y : num) : bool :=
  match x, y with
  | NaN, _ | _, NaN => false
  | Fin a, Fin b => negb (Qle_bool b a)
  | Fin _, Inf neg => negb neg
  | Inf neg, Fin _ => neg
  | Inf n1, Inf n2 => n1 && negb n2
  end.

(** [x <= y]: false when either side is [NaN]. *)
Definition num_le (x y : num) : bool :=
  match x, y with
  | NaN, _ | _, NaN => false
  | _, _ => negb (num_lt y x)
  end.

Definition num_neg (x : num) : num :=
  match x with
  | NaN => NaN
  | Fin a => Fin (- a)
  | Inf n => Inf (negb n)
  end.

Definition num_add (x y : num) : num :=
  match x, y with
  | NaN, _ | _, NaN => NaN
  | Fin a, Fin b => Fin (a + b)
  | Inf n, Fin _ | Fin _, Inf n => Inf n
  | Inf n1, Inf n2 => if Bool.eqb n1 n2 then Inf n1 else NaN
  end.

Definition num_sub (x y : num) : num := num_add x (num_neg y).

(** The sign of a finite value: [true] when negative. *)
Definition q_neg (a : Q) : bool := negb (Qle_bool 0 a).

Definition num_mul (x y : num) : num :=
  match x, y with
  | NaN, _ | _, NaN => NaN
  | Fin a, Fin b => Fin (a * b)
  | Inf n, Fin b | Fin b, Inf n =>
      if Qeq_bool b 0 then NaN else Inf (xorb n (q_neg b))
  | Inf n1, Inf n2 => Inf (xorb n1 n2)
  end.

Definition num_div (x y : num) : num :=
  match x, y with
  | NaN, _ | _, NaN => NaN
  | Fin a, Fin b =>
      if Qeq_bool b 0 then (if Qeq_bool a 0 then NaN else Inf (q_neg a))
      else Fin (a / b)
  | Inf n, Fin b => Inf (xorb n (q_neg b))
  | Fin _, Inf _ => Fin 0
  | Inf _, Inf _ => NaN
  end.

Section StringInput.
Local Open Scope N_scope.

(** The code points of a UTF-8 byte string; a byte that starts no valid
    sequence reads as U+FFFD. *)
Definition utf8_cont (c : ascii) : option N :=
  let n := N_of_ascii c in
  if (128 <=? n) && (n <? 192) then Some (n - 128) else None.

Fixpoint utf8_decode (l : list ascii) : list N :=
  match l with
  | [] => []
  | c :: r =>
    let n := N_of_ascii c in
    if n <? 128 then n :: utf8_decode r else
    match r with
    | [] => [65533]
    | c2 :: r2 =>
      if (194 <=? n) && (n <? 224) then
        match utf8_cont c2 with
        | Some x => ((n - 192) * 64 + x) :: utf8_decode r2
        | None => 65533 :: utf8_decode r
        end
      else
      match r2 with
      | [] => 65533 :: utf8_decode r
      | c3 :: r3 =>
        if (224 <=? n) && (n <? 240) then
          match utf8_cont c2, utf8_cont c3 with
          | Some x, Some y => ((n - 224) * 4096 + x * 64 + y) :: utf8_decode r3
          | _, _ => 65533 :: utf8_decode r
          end
        else
        match r3 with
        | [] => 65533 :: utf8_decode r
        | c4 :: r4 =>
          if (240 <=? n) && (n <? 245) then
            match utf8_cont c2, utf8_cont c3, utf8_cont c4 with
            | Some x, Some y, Some z =>
                ((n - 240) * 262144 + x * 4096 + y * 64 + z) :: utf8_decode r4
            | _, _, _ => 65533 :: utf8_decode r
            end
          else 65533 :: utf8_decode r
        end
      end
    end
  end.

Definition codes (s : string) : list N := utf8_decode (list_ascii_of_string s).

(** The bytes of a string, as PostgreSQL reads a text parameter. *)
Definition bytes (s : string) : list N := map N_of_ascii (list_ascii_of_string s).

(** [WhiteSpace] and [LineTerminator] of ECMAScript, trimmed by [Number]. *)
Definition js_space (c : N) : bool :=
  ((9 <=? c) && (c <=? 13)) || (c =? 32) || (c =? 160) || (c =? 5760)
  || ((8192 <=? c) && (c <=? 8202)) || (c =? 8232) || (c =? 8233)
  || (c =? 8239) || (c =? 8287) || (c =? 12288) || (c =? 65279).

Fixpoint drop_while (p : N -> bool) (l : list N) : list N :=
  match l with
  | c :: r => if p c then drop_while p r else l
  | [] => []
  end.

Definition js_trim (l : list N) : list N :=
  rev (drop_while js_space (rev (drop_while js_space l))).

(** The value of a character as a digit of base [b] ([0-9], then the
    letters from ten on, either case). *)
Definition digit_in (b c : N) : option N :=
  let v := if (48 <=? c) && (c <=? 57) then Some (c - 48)
           else if (97 <=? c) && (c <=? 122) then Some (c - 87)
           else if (65 <=? c) && (c <=? 90) then Some (c - 55)
           else None in
  match v with
  | Some d => if d <? b then Some d else None
  | None => None
  end.

Fixpoint all_digits (b : N) (l : list N) : option (list N) :=
  match l with
  | [] => Some []
  | c :: r =>
    match digit_in b c, all_digits b r with
    | Some d, Some ds => Some (d :: ds)
    | _, _ => None
    end
  end.

Definition digits_value (b : N) (ds : list N) : Z :=
  fold_left (fun acc d => acc * Z.of_N b + Z.of_N d)%Z ds 0%Z.

(** The leading decimal digits (their values) and the rest. *)
Fixpoint span_digits (l : list N) : list N * list N :=
  match l with
  | c :: r =>
    match digit_in 10 c with
    | Some d => let (ds, rest) := span_digits r in (d :: ds, rest)
    | None => ([], l)
    end
  | [] => ([], [])
  end.

(** [m * 10 ^ e]. *)
Definition scale10 (m e : Z) : Q :=
  if (0 <=? e)%Z then inject_Z (m * 10 ^ e)%Z else Qmake m (Z.to_pos (10 ^ (- e))%Z).

(** The exponent of a decimal literal ([e], [E], an optional sign and one
    digit at least), which must end the string. *)
Definition exponent_part (l : list N) : option Z :=
  match l with
  | [] => Some 0%Z
  | c :: r =>
    if (c =? 101) || (c =? 69) then
      let '(sg, r') := match r with
                       | s :: r'' => if s =? 43 then (1%Z, r'')
                                     else if s =? 45 then ((-1)%Z, r'')
                                     else (1%Z, r)
                       | [] => (1%Z, [])
                       end in
      match span_digits r' with
      | ((_ :: _) as ds, []) => Some (sg * digits_value 10 ds)%Z
      | _ => None
      end
    else None
  end.

(** A [StrUnsignedDecimalLiteral] other than [Infinity]: digits, an
    optional point followed by digits (one digit at least in all), an
    optional exponent. *)
Definition unsigned_decimal (l : list N) : option Q :=
  let (ip, r1) := span_digits l in
  let '(fp, r2) := match r1 with
                   | c :: r => if c =? 46 then span_digits r else ([], r1)
                   | [] => ([], [])
                   end in
  match ip, fp with
  | [], [] => None
  | _, _ =>
    match exponent_part r2 with
    | Some e =>
        Some (scale10 (digits_value 10 (ip ++ fp)%list) (e - Z.of_nat (List.length fp))%Z)
    | None => None
    end
  end.

Fixpoint codes_eqb (l1 l2 : list N) : bool :=
  match l1, l2 with
  | [], [] => true
  | a :: r1, b :: r2 => (a =? b) && codes_eqb r1 r2
  | _, _ => false
  end.

(** A [StrDecimalLiteral]: an optional sign, then [Infinity] or an
    unsigned decimal literal. *)
Definition signed_decimal (l : list N) : num :=
  let '(neg, r) := match l with
                   | c :: r => if c =? 43 then (false, r)
                               else if c =? 45 then (true, r)
                               else (false, l)
                   | [] => (false, [])
                   end in
  if codes_eqb r (codes "Infinity") then Inf neg
  else match unsigned_decimal r with
       | Some q => Fin (if neg then (- q)%Q else q)
       | None => NaN
       end.

(** The base of a [0x], [0o] or [0b] prefix, given its letter. *)
Definition radix_prefix (c : N) : option N :=
  if (c =? 120) || (c =? 88) then Some 16
  else if (c =? 111) || (c =? 79) then Some 8
  else if (c =? 98) || (c =? 66) then Some 2
  else None.

(** [StringToNumber]: the trimmed string is empty (0), a [0x], [0o] or
    [0b] literal without sign or underscore, or a [StrDecimalLiteral];
    anything else is [NaN]. *)
Definition string_to_number (s : string) : num :=
  match js_trim (codes s) with
  | [] => Fin 0
  | (c0 :: c1 :: ds) as l =>
      match (if c0 =? 48 then radix_prefix c1 else None) with
      | Some b =>
          match all_digits b ds with
          | Some ((_ :: _) as vs) => Fin (inject_Z (digits_value b vs))
          | _ => NaN
          end
      | None => signed_decimal l
      end
  | l => signed_decimal l
  end.

(** [isspace] of the server (a C or UTF-8 locale). *)
Definition c_isspace (c : N) : bool := (c =? 32) || ((9 <=? c) && (c <=? 13)).

Inductive scan :=
| SRange
| SSyntax
| SOk (v : Z) (rest : list N).

(** The digit loop of [pg_strtoint32] in base [b], [first] while no digit
    has been read.  Version 16 stops with "out of range" when a digit
    follows a value above [2^31 / b], and accepts an underscore followed by
    a digit (in base 10 not before the first digit); earlier versions read
    decimal digits only and stop as soon as the value passes [2^31]. *)
Fixpoint scan_digits (pg16 : bool) (b : N) (first : bool) (acc : Z) (l : list N)
  : scan :=
  match l with
  | [] => if first then SSyntax else SOk acc []
  | c :: r =>
    match digit_in b c with
    | Some d =>
      if (if pg16 then (Z.of_N (2 ^ 31 / b) <? acc)%Z
          else (2 ^ 31 <? acc * Z.of_N b + Z.of_N d)%Z)
      then SRange
      else scan_digits pg16 b false (acc * Z.of_N b + Z.of_N d)%Z r
    | None =>
      if pg16 && (c =? 95) && negb (first && (b =? 10)) then
        match r with
        | c' :: _ =>
          match digit_in b c' with
          | Some _ => scan_digits pg16 b first acc r
          | None => SSyntax
          end
        | [] => SSyntax
        end
      else if first then SSyntax else SOk acc l
    end
  end.

End StringInput.

Definition msg_nul := "invalid byte sequence for encoding UTF8: 0x00".

(** [int4in] of a text parameter: no NUL byte (the server refuses it as
    UTF-8), leading white space, a sign, the digits (from version 16 also
    [0x], [0o] or [0b] and a prefix-free base), trailing white space, then
    the range of [INTEGER]. *)
Definition pg_int4_text (pg16 : bool) (s : string) : param :=
  let l := bytes s in
  if existsb (N.eqb 0) l then PBad msg_nul else
  let r0 := drop_while c_isspace l in
  let '(neg, r1) := match r0 with
                    | c :: r => if (c =? 45)%N then (true, r)
                                else if (c =? 43)%N then (false, r)
                                else (false, r0)
                    | [] => (false, [])
                    end in
  let sc := match r1 with
            | c0 :: c1 :: r2 =>
                match (if pg16 && (c0 =? 48)%N then radix_prefix c1 else None) with
                | Some b => scan_digits pg16 b true 0 r2
                | None => scan_digits pg16 10 true 0 r1
                end
            | _ => scan_digits pg16 10 true 0 r1
            end in
  match sc with
  | SRange => PBad msg_int_range
  | SSyntax => PBad msg_int_syntax
  | SOk v rest =>
      if negb (forallb c_isspace rest) then PBad msg_int_syntax
      else let z := if neg then (- v)%Z else v in
           if (INT4_MIN <=? z)%Z && (z <=? INT4_MAX)%Z then PInt z
           else PBad msg_int_range
  end.

(** A value of a JSON body. *)
#[warnings="-register-all"]
Inductive jvalue :=
| VUndef
| VNull
| VBool (b : bool)
| VNum (n : num)
| VStr (s : string)             (* its UTF-8 bytes *)
| VArr (items : list jvalue)
| VObj (keys : list string).    (* the own keys of a parsed object *)

(** Whether [ToPrimitive] throws: an object with an own [toString] key
    (a JSON value, never a function) makes [OrdinaryToPrimitive] find no
    callable method; an array joins its items with [String]. *)
Fixpoint to_string_throws (v : jvalue) : bool :=
  match v with
  | VObj keys => existsb (String.eqb "toString") keys
  | VArr items => existsb to_string_throws items
  | _ => false
  end.

(** [ToNumber] of a value whose [ToPrimitive] does not throw: an array is
    the string of [join], so [[]] is 0, [[x]] is the number of [String(x)]
    ([null] giving the empty string, a boolean ["true"] or ["false"]) and a
    longer array holds a comma; an object is ["[object Object]"]. *)
Fixpoint number_of (v : jvalue) : num :=
  match v with
  | VUndef => NaN
  | VNull => Fin 0
  | VBool b => Fin (if b then 1 else 0)
  | VNum n => n
  | VStr s => string_to_number s
  | VArr [] => Fin 0
  | VArr [x] =>
      match x with
      | VUndef | VNull => Fin 0
      | VBool _ | VObj _ => NaN
      | _ => number_of x
      end
  | VArr _ => NaN
  | VObj _ => NaN
  end.

(** [ToNumber]; [None] is the [TypeError] thrown by [ToPrimitive]. *)
Definition to_num (v : jvalue) : option num :=
  if to_string_throws v then None else Some (number_of v).

(** [ToBoolean]. *)
Definition vtruthy (v : jvalue) : bool :=
  match v with
  | VUndef | VNull => false
  | VBool b => b
  | VNum NaN => false
  | VNum (Fin q) => negb (Qeq_bool q 0)
  | VNum (Inf _) => true
  | VStr s => negb (String.eqb s EmptyString)
  | VArr _ | VObj _ => true
  end.

(** A parameter bound to an [INTEGER] placeholder: node-postgres sends a
    number as [String(n)] ([pg_int4]; ["NaN"] and ["Infinity"] are no
    integers), a string as it is, an array as an array literal [{...}] and
    an object as its JSON text. *)
Definition pg_int4_v (pg16 : bool) (v : jvalue) : param :=
  match v with
  | VUndef | VNull => PNull
  | VBool b => pg_int4 (JBool b)
  | VNum (Fin q) => pg_int4 (JNum q)
  | VNum _ => PBad msg_int_syntax
  | VStr s => pg_int4_text pg16 s
  | VArr _ | VObj _ => PBad msg_int_syntax
  end.

(** A [DECIMAL(15, 2)] value: [NaN] or a number of hundredths. *)
Inductive dec :=
| DNaN
| DNum (c : Z).

(** Storing [String(x)] into a [DECIMAL(15, 2)] column: [NaN] is stored
    (the type modifier does not apply to it), an infinity is refused. *)
Definition pg_numeric_v (x : num) : option dec :=
  match x with
  | NaN => Some DNaN
  | Fin q => let c := to_cents q in
             if (Z.abs c <? 10 ^ 15)%Z then Some (DNum c) else None
  | Inf _ => None
  end.

(** [parseFloat] of a [DECIMAL] value returned as a string. *)
Definition dec_num (d : dec) : num :=
  match d with
  | DNaN => NaN
  | DNum c => Fin (dec2 c)
  end.

Record FDashboard := mkFDashboard {
  fd_id : Z;
  fd_wallet_balance : dec;
  fd_total_investment : dec;
  fd_monthly_yield : dec
}.

Record FDB := mkFDB {
  fdashboards : list FDashboard;
  fassets : list Asset
}.

Inductive foutcome (A : Type) :=
| FDone (a : A) (db : FDB)
| FThrown (msg : string).
Arguments FDone {A} a db.
Arguments FThrown {A} msg.

Definition ftx (A : Type) := FDB -> foutcome A.

Definition fret {A} (a : A) : ftx A := fun db => FDone a db.

Definition fbind {A B} (m : ftx A) (k : A -> ftx B) : ftx B :=
  fun db => match m db with
            | FDone a db' => k a db'
            | FThrown e => FThrown e
            end.

Definition fthrow {A} (msg : string) : ftx A := fun _ => FThrown msg.

Definition fquery {A} (flt : Fault) (k : QueryKind) (run : ftx A) : ftx A :=
  fun db => match flt k with
            | Some e => FThrown e
            | None => run db
            end.

Definition fq_select_asset (flt : Fault) (p : param) : ftx (list Asset) :=
  fquery flt QSelAsset (fun db =>
    match p with
    | PBad e => FThrown e
    | PNull => FDone [] db
    | PInt id => FDone (filter (fun a => (a_id a =? id)%Z) (fassets db)) db
    end).

Definition fq_select_dash (flt : Fault) : ftx (list FDashboard) :=
  fquery flt QSelDash (fun db => FDone (firstn 1 (fdashboards db)) db).

Definition fq_update_asset (flt : Fault) (p1 p2 : param) : ftx unit :=
  fquery flt QUpdAsset (fun db =>
    match p1, p2 with
    | PBad e, _ => FThrown e
    | _, PBad e => FThrown e
    | _, PNull => FDone tt db
    | PNull, PInt id =>
        if existsb (fun a => (a_id a =? id)%Z) (fassets db)
        then FThrown msg_int_null else FDone tt db
    | PInt t, PInt id =>
        let rows := upd_asset_rows t id (fassets db) in
        if forallb int4_tokens rows
        then FDone tt (mkFDB (fdashboards db) rows)
        else FThrown msg_int_range
    end).

Definition fupd_dash_rows (w t m : dec) (id : Z) (rows : list FDashboard)
  : list FDashboard :=
  map (fun d => if (fd_id d =? id)%Z then mkFDashboard (fd_id d) w t m else d) rows.

Definition fq_update_dash (flt : Fault) (w t m : num) (id : Z) : ftx unit :=
  fquery flt QUpdDash (fun db =>
    match pg_numeric_v w, pg_numeric_v t, pg_numeric_v m with
    | Some w', Some t', Some m' =>
        FDone tt (mkFDB (fupd_dash_rows w' t' m' id (fdashboards db)) (fassets db))
    | _, _, _ => FThrown msg_numeric_overflow
    end).

(** The [try] block over every JSON body; [tn] is [ToNumber(tokensToBuy)],
    the value of [tokensToBuy] in the comparison and the product (the input
    check has already converted it without a [TypeError]). *)
Definition f_invest_tx (pg16 : bool) (flt : Fault) (assetId : jvalue) (tn : num)
  (tokensToBuy : jvalue) : ftx (num * num * num * num) :=
  fbind (fquery flt QBegin (fret tt)) (fun _ =>
  fbind (fq_select_asset flt (pg_int4_v pg16 assetId)) (fun assetRes =>
  match assetRes with
  | [] => fthrow msg_asset_not_found
  | asset :: _ =>
    if num_lt (Fin (inject_Z (a_tokens_available asset))) tn
    then fthrow msg_tokens
    else
    let totalCost := num_mul (Fin (dec2 (a_price_per_token asset))) tn in
    fbind (fq_select_dash flt) (fun dashRes =>
    match dashRes with
    | [] => fthrow msg_no_dashboard
    | dashboard :: _ =>
      if num_lt (dec_num (fd_wallet_balance dashboard)) totalCost
      then fthrow msg_balance
      else
      fbind (fq_update_asset flt (pg_int4_v pg16 tokensToBuy) (pg_int4_v pg16 assetId))
        (fun _ =>
      let newTotalInvestment :=
        num_add (dec_num (fd_total_investment dashboard)) totalCost in
      let newWalletBalance :=
        num_sub (dec_num (fd_wallet_balance dashboard)) totalCost in
      let addedMonthlyYield :=
        num_div (num_mul totalCost (num_div (Fin (dec2 (a_apy asset))) (Fin 100)))
                (Fin 12) in
      let newMonthlyYield :=
        num_add (dec_num (fd_monthly_yield dashboard)) addedMonthlyYield in
      fbind (fq_update_dash flt newWalletBalance newTotalInvestment newMonthlyYield
                            (fd_id dashboard)) (fun _ =>
      fbind (fquery flt QCommit (fret tt)) (fun _ =>
      fret (totalCost, newWalletBalance, newTotalInvestment, newMonthlyYield))))
    end)
  end)).

(** The response body; [res.json] writes [NaN] as [null]. *)
Inductive fbody :=
| FError (error : string)
| FSuccess (spent remainingBalance newTotalInvestment newMonthlyYield : num).

Record fresponse := mkFResponse { f_status : Z; f_rbody : fbody }.

(** The handler over every JSON body.  The input check converts
    [tokensToBuy] for [tokensToBuy <= 0]; a [TypeError] there rejects the
    handler's promise. *)
Definition f_invest (pg16 : bool) (flt : Fault) (assetId tokensToBuy : jvalue)
  (db : FDB) : option fresponse * FDB :=
  if negb (vtruthy assetId) || negb (vtruthy tokensToBuy)
  then (Some (mkFResponse 400 (FError msg_valid)), db)
  else
    match to_num tokensToBuy with
    | None => (None, db)
    | Some tn =>
      if num_le tn (Fin 0)
      then (Some (mkFResponse 400 (FError msg_valid)), db)
      else
        match flt QConnect with
        | Some _ => (None, db)
        | None =>
          match f_invest_tx pg16 flt assetId tn tokensToBuy db with
          | FDone (spent, remaining, total, monthly) db' =>
              (Some (mkFResponse 200 (FSuccess spent remaining total monthly)), db')
          | FThrown e =>
              match flt QRollback with
              | None => (Some (mkFResponse 400 (FError e)), db)
              | Some _ => (None, db)
              end
          end
        end
    end.

(** The number model inside this one: a [jsval] is a JSON value, a
    dashboard row of numbers a row of [dec] values. *)
Definition embed_val (v : jsval) : jvalue :=
  match v with
  | JUndef => VUndef
  | JNull => VNull
  | JBool b => VBool b
  | JNum q => VNum (Fin q)
  end.

Definition num_of_jsnum (x : jsnum) : num :=
  match x with
  | Some q => Fin q
  | None => NaN
  end.

Definition embed_dash (d : Dashboard) : FDashboard :=
  mkFDashboard (d_id d) (DNum (d_wallet_balance d)) (DNum (d_total_investment d))
               (DNum (d_monthly_yield d)).

Definition embed_db (db : DB) : FDB := mkFDB (map embed_dash (dashboards db)) (assets db).

Definition embed_response (r : response) : fresponse :=
  mkFResponse (status r)
    (match rbody r with
     | BError e => FError e
     | BSuccess s w t m =>
         FSuccess (num_of_jsnum s) (num_of_jsnum w) (num_of_jsnum t) (num_of_jsnum m)
     end).

(** What [initDB] seeds, with dashboard amounts as [dec] values. *)
Definition seeded_fdb : FDB := embed_db (mkDB seeded_dashboards seeded_assets).

(** ** Lemmas on the conversions *)

Lemma pg_int4_inject (id : Z) :
  (INT4_MIN <= id <= INT4_MAX)%Z -> pg_int4 (JNum (inject_Z id)) = PInt id.
Proof.
  intros [H1 H2]. unfold pg_int4; simpl.
  rewrite Z.mod_1_r, Z.div_1_r. simpl.
  apply Z.leb_le in H1. apply Z.leb_le in H2. rewrite H1, H2. reflexivity.
Qed.

Lemma pg_int4_PInt (v : jsval) (z : Z) :
  pg_int4 v = PInt z -> exists q, to_number v = Some q /\ q == inject_Z z.
Proof.
  destruct v as [| | b | q]; simpl; try discriminate.
  destruct (Qnum q mod Z.pos (Qden q) =? 0)%Z eqn:Hm; [|discriminate].
  destruct (_ && _)%bool; [|destruct (_ <=? _)%Z; discriminate].
  intros [= <-]. exists q; split; [reflexivity|].
  apply Z.eqb_eq in Hm. destruct q as [n d]; simpl in *.
  unfold Qeq; simpl. rewrite Z.mul_1_r.
  rewrite (Z.div_mod n (Z.pos d)) at 1 by lia. rewrite Hm. ring.
Qed.

Lemma Qfloor_half (k : Z) : Qfloor (inject_Z k + (1 # 2)) = k.
Proof.
  unfold Qfloor; simpl.
  replace (k * 2 + 1 * 1)%Z with (k * 2 + 1)%Z by ring.
  rewrite Z.div_add_l by lia. change (1 / 2)%Z with 0%Z. ring.
Qed.

Lemma to_cents_exact (x : Q) (k : Z) : x == k # 100 -> to_cents x = k.
Proof.
  intros H. unfold to_cents. destruct (Qle_bool 0 x) eqn:E.
  - rewrite (Qfloor_comp _ (inject_Z k + (1 # 2))).
    + apply Qfloor_half.
    + rewrite H. unfold Qeq; simpl. ring.
  - rewrite (Qfloor_comp _ (inject_Z (- k) + (1 # 2))).
    + rewrite Qfloor_half. ring.
    + rewrite H. unfold Qeq; simpl. ring.
Qed.


(** ** The successful transaction *)

Ltac crush_tx :=
  repeat match goal with
  | H : Thrown _ = Done _ _ |- _ => discriminate H
  | H : Done _ _ = Thrown _ |- _ => discriminate H
  | H : Thrown _ = Thrown _ |- _ => inversion H; subst; clear H
  | H : [] = _ :: _ |- _ => discriminate H
  | H : _ :: _ = [] |- _ => discriminate H
  | H : Done _ _ = Done _ _ |- _ => inversion H; subst; clear H
  | H : _ :: _ = _ :: _ |- _ => inversion H; subst; clear H
  | H : context [match ?x with _ => _ end] |- _ =>
      let E := fresh "E" in destruct x eqn:E; cbn beta iota in H
  end.

Lemma filter_cons_existsb {A} (f : A -> bool) (l : list A) a rest :
  filter f l = a :: rest -> existsb f l = true.
Proof.
  induction l as [|x l IH]; simpl; [discriminate|].
  destruct (f x); [reflexivity|]. exact IH.
Qed.

Lemma invest_tx_done (flt : Fault) (assetId tokensToBuy : jsval) (db : DB) r db' :
  invest_tx flt assetId tokensToBuy db = Done r db' ->
  exists id z q asset rest dash w' t' m',
    flt QBegin = None /\ flt QSelAsset = None /\ flt QSelDash = None /\
    flt QUpdAsset = None /\ flt QUpdDash = None /\ flt QCommit = None /\
    pg_int4 assetId = PInt id /\
    filter (fun a => (a_id a =? id)%Z) (assets db) = asset :: rest /\
    pg_int4 tokensToBuy = PInt z /\
    to_number tokensToBuy = Some q /\ q == inject_Z z /\
    js_lt (Some (inject_Z (a_tokens_available asset))) (Some q) = false /\
    first_dashboard db = Some dash /\
    js_lt (Some (dec2 (d_wallet_balance dash)))
          (Some (dec2 (a_price_per_token asset) * q)) = false /\
    pg_numeric_15_2 (Some (dec2 (d_wallet_balance dash)
                           - dec2 (a_price_per_token asset) * q)) = Some w' /\
    pg_numeric_15_2 (Some (dec2 (d_total_investment dash)
                           + dec2 (a_price_per_token asset) * q)) = Some t' /\
    pg_numeric_15_2 (Some (dec2 (d_monthly_yield dash)
                           + dec2 (a_price_per_token asset) * q
                             * (dec2 (a_apy asset) / 100) / 12)) = Some m' /\
    forallb int4_tokens (upd_asset_rows z id (assets db)) = true /\
    db' = mkDB (upd_dash_rows w' t' m' (d_id dash) (dashboards db))
               (upd_asset_rows z id (assets db)) /\
    r = (Some (dec2 (a_price_per_token asset) * q),
         Some (dec2 (d_wallet_balance dash) - dec2 (a_price_per_token asset) * q),
         Some (dec2 (d_total_investment dash) + dec2 (a_price_per_token asset) * q),
         Some (dec2 (d_monthly_yield dash)
               + dec2 (a_price_per_token asset) * q
                 * (dec2 (a_apy asset) / 100) / 12)).
Proof.
  unfold invest_tx, bind, q_begin, q_select_asset, q_select_dash, q_update_asset,
    q_update_dash, q_commit, query, ret, throw.
  intros H.
  crush_tx.
  - exfalso. match goal with
             | F : filter _ _ = _ :: _, X : existsb _ _ = false |- _ =>
                 rewrite (filter_cons_existsb _ _ _ _ F) in X; discriminate X
             end.
  - match goal with E : pg_int4 tokensToBuy = PInt _ |- _ =>
      destruct (pg_int4_PInt _ _ E) as [q [Hq Hqz]] end.
    unfold js_sub, js_add, js_mul, js_div in *. rewrite Hq in *. cbn beta iota in *.
    do 9 eexists.
    repeat split; try reflexivity; try eassumption.
    + unfold first_dashboard. match goal with D : dashboards _ = _ :: _ |- _ => rewrite D end.
      reflexivity.
    + simpl. match goal with D : dashboards _ = _ :: _ |- _ => rewrite D end.
      reflexivity.
Qed.

Lemma filter_cons_find {A} (f : A -> bool) (l : list A) a rest :
  filter f l = a :: rest -> find f l = Some a.
Proof.
  induction l as [|x l IH]; simpl; [discriminate|].
  destruct (f x); [congruence|]. exact IH.
Qed.


Lemma find_nil_filter {A} (f : A -> bool) (l : list A) :
  find f l = None -> filter f l = [].
Proof.
  induction l as [|x l IH]; simpl; [reflexivity|].
  destruct (f x); [discriminate|]. exact IH.
Qed.

Lemma find_some_filter {A} (f : A -> bool) (l : list A) a :
  find f l = Some a -> exists rest, filter f l = a :: rest.
Proof.
  induction l as [|x l IH]; simpl; [discriminate|].
  destruct (f x); [intros [= ->]; eexists; reflexivity|]. exact IH.
Qed.


Lemma map_a_id_upd_asset_rows (z id : Z) (l : list Asset) :
  map a_id (upd_asset_rows z id l) = map a_id l.
Proof.
  induction l as [|x l IH]; simpl; [reflexivity|].
  destruct (a_id x =? id)%Z; simpl; rewrite IH; reflexivity.
Qed.

Lemma numeric_exact (x : Q) (c k : Z) :
  pg_numeric_15_2 (Some x) = Some c -> x == k # 100 -> c = k.
Proof.
  unfold pg_numeric_15_2. destruct (Z.abs (to_cents x) <? 10 ^ 15)%Z; [|discriminate].
  intros [= <-]. apply to_cents_exact.
Qed.


Lemma js_lt_false (a b : Q) : js_lt (Some a) (Some b) = false -> b <= a.
Proof.
  simpl. destruct (Qle_bool b a) eqn:E; [|discriminate].
  intros _. apply Qle_bool_iff. exact E.
Qed.

Lemma js_lt_true (a b : Q) : js_lt (Some a) (Some b) = true -> a < b.
Proof.
  simpl. destruct (Qle_bool b a) eqn:E; [discriminate|].
  intros _. apply Qnot_le_lt. intros Hle. apply Qle_bool_iff in Hle. congruence.
Qed.

(** The handler either leaves the committed database unchanged or commits
    the view of a successful transaction. *)
Lemma invest_result (flt : Fault) (assetId tokensToBuy : jsval) (db : DB) :
  snd (invest flt assetId tokensToBuy db) = db \/
  (exists spent remaining total monthly,
     invest_tx flt assetId tokensToBuy db
       = Done (spent, remaining, total, monthly) (snd (invest flt assetId tokensToBuy db))
     /\ fst (invest flt assetId tokensToBuy db)
        = Some (mkResponse 200 (BSuccess spent remaining total monthly))).
Proof.
  unfold invest.
  destruct (invalid_input assetId tokensToBuy); [left; reflexivity|].
  destruct (flt QConnect); [left; reflexivity|].
  destruct (invest_tx flt assetId tokensToBuy db) as [[[[s rm] t] m] db'|e] eqn:T.
  - right. exists s, rm, t, m. split; reflexivity.
  - left. destruct (flt QRollback); reflexivity.
Qed.

(** A response with status 200 comes from a committed transaction; every
    other outcome leaves the database as it was. *)
Lemma invest_not_200 (flt : Fault) (assetId tokensToBuy : jsval) (db db' : DB) r :
  invest flt assetId tokensToBuy db = (Some r, db') -> status r <> 200%Z -> db' = db.
Proof.
  intros H Hs. destruct (invest_result flt assetId tokensToBuy db) as [E|(s & rm & t & m & _ & F)];
    rewrite H in *; simpl in *; [congruence|].
  inversion F; subst. simpl in Hs. congruence.
Qed.

Lemma numeric_cents (x : Q) (c : Z) :
  pg_numeric_15_2 (Some x) = Some c -> c = to_cents x.
Proof.
  unfold pg_numeric_15_2. destruct (Z.abs (to_cents x) <? 10 ^ 15)%Z; [|discriminate].
  intros [= <-]. reflexivity.
Qed.

Lemma truthy_inject (id : Z) : id <> 0%Z -> truthy (JNum (inject_Z id)) = true.
Proof.
  intros H. simpl. destruct (Qeq_bool (inject_Z id) 0) eqn:E; [|reflexivity].
  apply Qeq_bool_iff in E. unfold Qeq in E; simpl in E. lia.
Qed.

(** The input check lets through a truthy [assetId] and a [tokensToBuy]
    converting to a positive number. *)
Lemma valid_input (assetId tokensToBuy : jsval) (q : Q) :
  truthy assetId = true -> to_number tokensToBuy = Some q -> 0 < q ->
  invalid_input assetId tokensToBuy = false.
Proof.
  intros Ha Ht Hq. unfold invalid_input. rewrite Ha, Ht. simpl.
  assert (Hle : Qle_bool q 0 = false).
  { destruct (Qle_bool q 0) eqn:E; [|reflexivity].
    apply Qle_bool_iff in E. exfalso. lra. }
  rewrite Hle, orb_false_r.
  destruct tokensToBuy as [| |[|]|q']; simpl in *; inversion Ht; subst;
    try reflexivity; try (exfalso; lra).
  destruct (Qeq_bool q 0) eqn:E; [|reflexivity].
    apply Qeq_bool_iff in E. exfalso. rewrite E in Hq. lra.
Qed.

(** A response with status 200 is the report of a committed transaction. *)
Lemma invest_200 (flt : Fault) (assetId tokensToBuy : jsval) (db db' : DB) r :
  invest flt assetId tokensToBuy db = (Some r, db') -> status r = 200%Z ->
  invalid_input assetId tokensToBuy = false /\
  exists spent remaining total monthly,
    invest_tx flt assetId tokensToBuy db = Done (spent, remaining, total, monthly) db'
    /\ r = mkResponse 200 (BSuccess spent remaining total monthly).
Proof.
  unfold invest. intros H Hs.
  destruct (invalid_input assetId tokensToBuy);
    [inversion H; subst; discriminate|].
  split; [reflexivity|].
  destruct (flt QConnect); [discriminate|].
  destruct (invest_tx flt assetId tokensToBuy db) as [[[[s rm] t] m] db0|e] eqn:T.
  - inversion H; subst. exists s, rm, t, m. split; reflexivity.
  - destruct (flt QRollback); inversion H; subst; discriminate.
Qed.

(** ** Claims about [POST /invest] *)


(** C2: on success, the reported [newMonthlyYield] is exactly the old
    monthly yield plus [addedMonthlyYield = (totalCost * (apy / 100)) / 12];
    the stored [monthly_yield] is that value rounded to two decimals (the
    scale of its [DECIMAL(15, 2)] column). *)
Theorem invest_monthly_yield (flt : Fault) (assetId tokensToBuy : jsval)
  (db db' : DB) (r : response) :
  invest flt assetId tokensToBuy db = (Some r, db') ->
  status r = 200%Z ->
  exists id q asset dash spent remaining total monthly dash',
    pg_int4 assetId = PInt id /\
    find_asset db id = Some asset /\
    first_dashboard db = Some dash /\
    to_number tokensToBuy = Some q /\
    rbody r = BSuccess (Some spent) (Some remaining) (Some total) (Some monthly) /\
    spent == dec2 (a_price_per_token asset) * q /\
    monthly == dec2 (d_monthly_yield dash) + (spent * (dec2 (a_apy asset) / 100)) / 12 /\
    first_dashboard db' = Some dash' /\
    d_monthly_yield dash' = to_cents monthly.
Proof.
  intros H Hs.
  destruct (invest_200 _ _ _ _ _ _ H Hs) as (_ & s & rm & t & m & T & ->).
  destruct (invest_tx_done _ _ _ _ _ _ T)
    as (id & z & q & asset & rest & dash & w' & t' & m' &
        _ & _ & _ & _ & _ & _ & Hid & Hf & Hz & Hq & Hqz & _ & Hd & _ &
        _ & _ & Hm & _ & Hdb & Hr).
  inversion Hr; subst s rm t m. subst db'.
  exists id, q, asset, dash.
  do 4 eexists.
  exists (mkDashboard (d_id dash) w' t' m').
  repeat split; try eassumption; try reflexivity.
  - unfold find_asset. apply (filter_cons_find _ _ _ _ Hf).
  - unfold first_dashboard in *; simpl.
    destruct (dashboards db) as [|d0 ds]; [discriminate|].
    simpl in Hd. inversion Hd; subst d0. simpl. rewrite Z.eqb_refl. reflexivity.
  - simpl. apply (numeric_cents _ _ Hm).
Qed.

(** The spec's scenario: [10] tokens of the first seeded asset bought from
    the seeded dashboard. *)
Definition scenario_invest : option response * DB :=
  invest no_fault (JNum 1) (JNum 10) scenario_db.

(** C2 fails as stated: in the spec's scenario the stored monthly yield
    is [439.04], not the old yield plus [addedMonthlyYield] ([439.0416...]),
    which is what the response reports. *)
Lemma invest_monthly_yield_rounded :
  first_dashboard (snd scenario_invest) = Some (mkDashboard 1 1450000 570000 43904) /\
  ~ (dec2 43904 == dec2 43550 + (dec2 5000 * 10 * (dec2 850 / 100)) / 12) /\
  (exists s rm t, fst scenario_invest
     = Some (mkResponse 200 (BSuccess s rm t
              (Some (dec2 43550 + dec2 5000 * 10 * (dec2 850 / 100) / 12))))).
Proof.
  split; [vm_compute; reflexivity|].
  split; [unfold Qeq; vm_compute; discriminate|].
  do 3 eexists. vm_compute. reflexivity.
Qed.

(** C3: a request whose [assetId] is falsy (missing, [null], [false], [0])
    or whose [tokensToBuy] is falsy or converts to a number [<= 0] is
    answered with 400 and the validation message whatever the store would
    do (no query is sent), and the database is unchanged. *)
Theorem invest_rejects_invalid_input (flt : Fault) (assetId tokensToBuy : jsval)
  (db : DB) :
  (truthy assetId = false \/ truthy tokensToBuy = false \/
   exists q, to_number tokensToBuy = Some q /\ q <= 0) ->
  invest flt assetId tokensToBuy db = (Some (mkResponse 400 (BError msg_valid)), db).
Proof.
  intros H. unfold invest.
  replace (invalid_input assetId tokensToBuy) with true; [reflexivity|].
  unfold invalid_input.
  destruct H as [H|[H|(q & Hq & Hle)]].
  - rewrite H. reflexivity.
  - rewrite H, orb_true_r. reflexivity.
  - rewrite Hq. simpl. apply Qle_bool_iff in Hle. rewrite Hle, !orb_true_r.
    reflexivity.
Qed.

(** C3 fails as stated: a fractional [tokensToBuy] such as [1.5] passes the
    input check; the request reaches the store (a failing [BEGIN] shows) and
    ends with the store's integer-parse error, not the validation error. *)
Lemma invest_fractional_tokens_reach_store :
  invalid_input (JNum 1) (JNum (3 # 2)) = false /\
  invest no_fault (JNum 1) (JNum (3 # 2)) scenario_db
    = (Some (mkResponse 400 (BError msg_int_syntax)), scenario_db) /\
  invest (fun k => match k with QBegin => Some "connection refused" | _ => None end)
    (JNum 1) (JNum (3 # 2)) scenario_db
    = (Some (mkResponse 400 (BError "connection refused")), scenario_db).
Proof. vm_compute. repeat split. Qed.

(** C4: a request that passes the input check and names by a 32-bit
    integer [assetId] no existing asset fails with 400 ["Asset not found"]
    and the database is unchanged. *)
Theorem invest_unknown_asset (tokensToBuy : jsval) (db : DB) (id : Z) (q : Q) :
  id <> 0%Z -> (INT4_MIN <= id <= INT4_MAX)%Z ->
  to_number tokensToBuy = Some q -> 0 < q ->
  find_asset db id = None ->
  invest no_fault (JNum (inject_Z id)) tokensToBuy db
  = (Some (mkResponse 400 (BError msg_asset_not_found)), db).
Proof.
  intros H0 Hr Hq Hpos Hf. unfold invest.
  rewrite (valid_input _ _ q (truthy_inject id H0) Hq Hpos).
  unfold invest_tx, bind, q_begin, q_select_asset, query, ret, throw, no_fault.
  cbn beta iota. rewrite (pg_int4_inject id Hr).
  unfold find_asset in Hf. rewrite (find_nil_filter _ _ Hf). reflexivity.
Qed.

(** C4 fails as stated: asset ids start at 1, yet [assetId = 0] gets the
    validation message, not ["Asset not found"]. *)
Lemma invest_asset_zero_validation :
  find_asset scenario_db 0 = None /\
  invest no_fault (JNum 0) (JNum 1) scenario_db
    = (Some (mkResponse 400 (BError msg_valid)), scenario_db).
Proof. vm_compute. split; reflexivity. Qed.

Lemma pg_int4_bad (v : jsval) (e : string) :
  pg_int4 v = PBad e -> e = msg_int_syntax \/ e = msg_int_range.
Proof.
  destruct v as [| | b | q]; simpl; try discriminate.
  - intros [= <-]. left. reflexivity.
  - destruct (_ =? 0)%Z; [|intros [= <-]; left; reflexivity].
    destruct (_ && _)%bool; [discriminate|].
    destruct (_ <=? _)%Z; intros [= <-]; [left|right]; reflexivity.
Qed.

(** Where the message of a failed transaction comes from. *)
Lemma invest_tx_thrown (flt : Fault) (assetId tokensToBuy : jsval) (db : DB) e :
  invest_tx flt assetId tokensToBuy db = Thrown e ->
  (exists k, flt k = Some e) \/
  e = msg_asset_not_found \/
  (e = msg_tokens /\ exists id asset rest,
     pg_int4 assetId = PInt id /\
     filter (fun a => (a_id a =? id)%Z) (assets db) = asset :: rest /\
     js_lt (Some (inject_Z (a_tokens_available asset))) (to_number tokensToBuy) = true) \/
  e = msg_no_dashboard \/ e = msg_balance \/ e = msg_int_syntax \/
  e = msg_int_range \/ e = msg_int_null \/ e = msg_numeric_overflow.
Proof.
  unfold invest_tx, bind, q_begin, q_select_asset, q_select_dash, q_update_asset,
    q_update_dash, q_commit, query, ret, throw.
  intros H.
  crush_tx;
    try match goal with
        | E : pg_int4 _ = PBad _ |- _ => destruct (pg_int4_bad _ _ E) as [-> | ->]
        end;
    try solve [left; eexists; eassumption];
    right; try solve [left; reflexivity];
    right; try solve [left; split; [reflexivity|]; do 3 eexists; repeat split; eassumption];
    right; repeat first [solve [left; reflexivity] | right]; reflexivity.
Qed.

(** C5: when the asset named by [assetId] has fewer tokens than
    [tokensToBuy] (the comparison of the code), the request fails with 400
    and the message ["Not enough tokens available in this asset"], which
    starts with ["Not enough tokens available"], and the database is
    unchanged; when the asset has enough tokens, that failure is not the
    answer.  Asset ids are positive (a [SERIAL] key) and token counts are
    non-negative (the data-model invariant). *)
Theorem invest_not_enough_tokens (tokensToBuy : jsval) (db : DB) (id : Z)
  (asset : Asset) :
  (0 < id <= INT4_MAX)%Z ->
  find_asset db id = Some asset ->
  (0 <= a_tokens_available asset)%Z ->
  (js_lt (Some (inject_Z (a_tokens_available asset))) (to_number tokensToBuy) = true ->
   invest no_fault (JNum (inject_Z id)) tokensToBuy db
   = (Some (mkResponse 400 (BError msg_tokens)), db)) /\
  (js_lt (Some (inject_Z (a_tokens_available asset))) (to_number tokensToBuy) = false ->
   fst (invest no_fault (JNum (inject_Z id)) tokensToBuy db)
   <> Some (mkResponse 400 (BError msg_tokens))) /\
  prefix "Not enough tokens available" msg_tokens = true.
Proof.
  intros Hid Hf Htok.
  assert (Hr : (INT4_MIN <= id <= INT4_MAX)%Z) by (unfold INT4_MIN in *; lia).
  destruct (find_some_filter _ _ _ Hf) as [rest Hfl].
  split; [|split; [|reflexivity]].
  - intros Hlt.
    destruct (to_number tokensToBuy) as [q|] eqn:Hq; [|discriminate].
    apply js_lt_true in Hlt.
    assert (Hq0 : 0 < q).
    { apply Qle_lt_trans with (inject_Z (a_tokens_available asset)); [|exact Hlt].
      change 0 with (inject_Z 0). rewrite <- Zle_Qle. exact Htok. }
    unfold invest.
    rewrite (valid_input _ _ q (truthy_inject id ltac:(lia)) Hq Hq0).
    unfold invest_tx, bind, q_begin, q_select_asset, query, ret, throw, no_fault.
    cbn beta iota. rewrite (pg_int4_inject id Hr). rewrite Hfl, Hq.
    replace (js_lt (Some (inject_Z (a_tokens_available asset))) (Some q)) with true.
    + reflexivity.
    + symmetry. simpl. destruct (Qle_bool q (inject_Z (a_tokens_available asset))) eqn:E;
        [|reflexivity].
      apply Qle_bool_iff in E. exfalso. lra.
  - intros Hge. unfold invest.
    destruct (invalid_input (JNum (inject_Z id)) tokensToBuy);
      [simpl; unfold msg_valid, msg_tokens; discriminate|].
    destruct (invest_tx no_fault (JNum (inject_Z id)) tokensToBuy db)
      as [[[[sp rm] tt] my] db'|e] eqn:T; simpl; [discriminate|].
    intros Hc. inversion Hc; subst e.
    destruct (invest_tx_thrown _ _ _ _ _ T)
      as [[k Hk]|[Hm|[(_ & id' & asset' & rest' & Hid' & Hfl' & Hlt)|Hm]]].
    + discriminate Hk.
    + discriminate Hm.
    + rewrite (pg_int4_inject id Hr) in Hid'. inversion Hid'; subst id'.
      rewrite Hfl in Hfl'. inversion Hfl'; subst. congruence.
    + repeat destruct Hm as [Hm|Hm]; discriminate Hm.
Qed.

Lemma js_lt_Q_false (a b : Q) : b <= a -> js_lt (Some a) (Some b) = false.
Proof.
  intros H. simpl. apply Qle_bool_iff in H. rewrite H. reflexivity.
Qed.

Lemma js_lt_Q_true (a b : Q) : a < b -> js_lt (Some a) (Some b) = true.
Proof.
  intros H. simpl. destruct (Qle_bool b a) eqn:E; [|reflexivity].
  apply Qle_bool_iff in E. exfalso. lra.
Qed.

(** C6: a request that passes the input check, names an existing asset
    with enough tokens, and costs more than the wallet balance fails with
    400 ["Insufficient wallet balance to complete transaction"] (starting
    with ["Insufficient wallet balance"]); the database, asset and
    dashboard alike, is unchanged. *)
Theorem invest_insufficient_balance (tokensToBuy : jsval) (db : DB) (id : Z)
  (asset : Asset) (dash : Dashboard) (q : Q) :
  (0 < id <= INT4_MAX)%Z ->
  find_asset db id = Some asset ->
  first_dashboard db = Some dash ->
  to_number tokensToBuy = Some q -> 0 < q ->
  q <= inject_Z (a_tokens_available asset) ->
  dec2 (d_wallet_balance dash) < dec2 (a_price_per_token asset) * q ->
  invest no_fault (JNum (inject_Z id)) tokensToBuy db
  = (Some (mkResponse 400 (BError msg_balance)), db) /\
  prefix "Insufficient wallet balance" msg_balance = true.
Proof.
  intros Hid Hf Hd Hq Hq0 Hle Hlt.
  assert (Hr : (INT4_MIN <= id <= INT4_MAX)%Z) by (unfold INT4_MIN in *; lia).
  destruct (find_some_filter _ _ _ Hf) as [rest Hfl].
  split; [|reflexivity].
  unfold invest.
  rewrite (valid_input _ _ q (truthy_inject id ltac:(lia)) Hq Hq0).
  unfold invest_tx, bind, q_begin, q_select_asset, q_select_dash, query, ret, throw,
    no_fault.
  cbn beta iota. rewrite (pg_int4_inject id Hr). rewrite Hfl, Hq.
  rewrite (js_lt_Q_false _ _ Hle).
  unfold first_dashboard in Hd. destruct (dashboards db) as [|d0 ds]; [discriminate|].
  simpl in Hd. inversion Hd; subst d0. cbn [firstn js_mul].
  rewrite (js_lt_Q_true _ _ Hlt). reflexivity.
Qed.

(** C6 fails as stated: when the asset also lacks tokens, the inventory
    failure is reported, although [totalCost = 50] exceeds the balance
    [10]. *)
Definition sold_out_db : DB :=
  mkDB [mkDashboard 1 1000 0 0]
       [mkAsset 1 "Skyline Apartments" "New York, NY" 850 5000 0].

Lemma invest_balance_after_inventory :
  dec2 1000 < dec2 5000 * 1 /\
  invest no_fault (JNum 1) (JNum 1) sold_out_db
    = (Some (mkResponse 400 (BError msg_tokens)), sold_out_db).
Proof.
  split.
  - unfold Qlt; vm_compute. reflexivity.
  - vm_compute. reflexivity.
Qed.

(** C10: without a dashboard row no invest succeeds (whatever the store
    does) and the database stays unchanged; a request that passes the input
    check, the asset lookup and the inventory check fails with 400 and the
    [TypeError] of reading [wallet_balance] of [undefined]. *)
Theorem invest_without_dashboard (db : DB) :
  dashboards db = [] ->
  (forall flt assetId tokensToBuy r db',
     invest flt assetId tokensToBuy db = (Some r, db') ->
     status r <> 200%Z /\ db' = db) /\
  (forall tokensToBuy id asset q,
     (0 < id <= INT4_MAX)%Z ->
     find_asset db id = Some asset ->
     to_number tokensToBuy = Some q -> 0 < q ->
     q <= inject_Z (a_tokens_available asset) ->
     invest no_fault (JNum (inject_Z id)) tokensToBuy db
     = (Some (mkResponse 400 (BError msg_no_dashboard)), db)).
Proof.
  intros Hnil. split.
  - intros flt assetId tokensToBuy r db' H.
    assert (Hs : status r <> 200%Z).
    { intros Hs.
      destruct (invest_200 _ _ _ _ _ _ H Hs) as (_ & s & rm & t & m & T & _).
      destruct (invest_tx_done _ _ _ _ _ _ T)
        as (id & z & q & asset & rest & dash & w' & t' & m' &
            _ & _ & _ & _ & _ & _ & _ & _ & _ & _ & _ & _ & Hd & _).
      unfold first_dashboard in Hd. rewrite Hnil in Hd. discriminate. }
    split; [exact Hs|]. exact (invest_not_200 _ _ _ _ _ _ H Hs).
  - intros tokensToBuy id asset q Hid Hf Hq Hq0 Hle.
    assert (Hr : (INT4_MIN <= id <= INT4_MAX)%Z) by (unfold INT4_MIN in *; lia).
    destruct (find_some_filter _ _ _ Hf) as [rest Hfl].
    unfold invest.
    rewrite (valid_input _ _ q (truthy_inject id ltac:(lia)) Hq Hq0).
    unfold invest_tx, bind, q_begin, q_select_asset, q_select_dash, query, ret, throw,
      no_fault.
    cbn beta iota. rewrite (pg_int4_inject id Hr). rewrite Hfl, Hq.
    rewrite (js_lt_Q_false _ _ Hle). rewrite Hnil. reflexivity.
Qed.

(** ** The data-model invariant under [POST /invest] *)




(** ** Store failures during [POST /invest] *)

(** The queries between [BEGIN] and [COMMIT], inside the handler's [try]. *)
Definition tx_queries : list QueryKind :=
  [QBegin; QSelAsset; QSelDash; QUpdAsset; QUpdDash; QCommit].

(** Case analysis on the matches of a hypothesis about [f_invest_tx]. *)
Ltac destr_in H :=
  match type of H with
  | context [match ?x with Some _ => _ | None => _ end] => destruct x
  | context [if ?b then _ else _] => destruct b
  | context [match ?x with [] => _ | _ :: _ => _ end] => destruct x
  | context [match ?x with PBad _ => _ | PNull => _ | PInt _ => _ end] => destruct x
  end.

Lemma f_invest_tx_done_queries (pg16 : bool) (flt : Fault) (a : jvalue) (tn : num)
  (t : jvalue) (db : FDB) x db' :
  f_invest_tx pg16 flt a tn t db = FDone x db' -> forall k, In k tx_queries -> flt k = None.
Proof.
  intros H k Hk. destruct (flt k) as [e|] eqn:Hf; [exfalso|reflexivity].
  unfold f_invest_tx, fq_select_asset, fq_select_dash, fq_update_asset, fq_update_dash,
    fbind, fquery, fret, fthrow in H.
  simpl in Hk. repeat destruct Hk as [<-|Hk]; try contradiction; rewrite Hf in H;
    repeat (simpl in H; destr_in H); discriminate.
Qed.

(** C8: over every JSON body and every PostgreSQL version, the handler
    itself only sends 200 or 400; a store failure of any query between
    [BEGIN] and [COMMIT], rolled back, is answered with 400 and the error
    message, the status of the business rejections, the database unchanged;
    a failing [pool.connect()], or a failing [ROLLBACK] after a failed
    transaction, rejects the handler's promise: Express 5 then answers 500
    and Express 4 sends nothing, the database unchanged. *)
Theorem invest_store_failure_is_400 :
  (forall pg16 flt assetId tokensToBuy db r db',
     f_invest pg16 flt assetId tokensToBuy db = (Some r, db') ->
     f_status r = 200%Z \/ f_status r = 400%Z) /\
  (forall pg16 flt assetId tokensToBuy db tn k e,
     vtruthy assetId = true -> vtruthy tokensToBuy = true ->
     to_num tokensToBuy = Some tn -> num_le tn (Fin 0) = false ->
     flt QConnect = None -> flt QRollback = None ->
     In k tx_queries -> flt k = Some e ->
     exists msg, f_invest pg16 flt assetId tokensToBuy db
                 = (Some (mkFResponse 400 (FError msg)), db)) /\
  (forall v pg16 flt assetId tokensToBuy db tn,
     vtruthy assetId = true -> vtruthy tokensToBuy = true ->
     to_num tokensToBuy = Some tn -> num_le tn (Fin 0) = false ->
     (flt QConnect <> None \/
      ((exists e, f_invest_tx pg16 flt assetId tn tokensToBuy db = FThrown e) /\
       flt QRollback <> None)) ->
     served v (option_map f_status (fst (f_invest pg16 flt assetId tokensToBuy db)))
       = match v with Express4 => None | Express5 => Some 500%Z end /\
     snd (f_invest pg16 flt assetId tokensToBuy db) = db).
Proof.
  split; [|split].
  - intros pg16 flt assetId tokensToBuy db r db'. unfold f_invest.
    destruct (negb (vtruthy assetId) || negb (vtruthy tokensToBuy));
      [intros [= <- _]; right; reflexivity|].
    destruct (to_num tokensToBuy) as [tn|]; [|discriminate].
    destruct (num_le tn (Fin 0)); [intros [= <- _]; right; reflexivity|].
    destruct (flt QConnect); [discriminate|].
    destruct (f_invest_tx pg16 flt assetId tn tokensToBuy db) as [[[[s w] t] m] db0|e].
    + intros [= <- _]. left. reflexivity.
    + destruct (flt QRollback); [discriminate|]. intros [= <- _]. right. reflexivity.
  - intros pg16 flt assetId tokensToBuy db tn k e Ha Ht Hn Hle Hc Hrb Hk He.
    unfold f_invest. rewrite Ha, Ht, Hn, Hle, Hc. simpl.
    destruct (f_invest_tx pg16 flt assetId tn tokensToBuy db) as [x db'|msg] eqn:T.
    + exfalso. rewrite (f_invest_tx_done_queries _ _ _ _ _ _ _ _ T k Hk) in He.
      discriminate.
    + rewrite Hrb. exists msg. reflexivity.
  - intros v pg16 flt assetId tokensToBuy db tn Ha Ht Hn Hle Hf.
    unfold f_invest. rewrite Ha, Ht, Hn, Hle. simpl.
    destruct Hf as [Hc|[[e T] Hrb]].
    + destruct (flt QConnect); [|congruence]. split; [destruct v|]; reflexivity.
    + destruct (flt QConnect); [split; [destruct v|]; reflexivity|]. rewrite T.
      destruct (flt QRollback); [|congruence]. split; [destruct v|]; reflexivity.
Qed.

(** A connection dropped while the dashboard is read. *)
Definition fault_select_dashboard : Fault :=
  fun k => match k with
           | QSelDash => Some "Connection terminated unexpectedly"
           | _ => None
           end.

(** C8 fails as stated: an infrastructure failure in the middle of the
    transaction is answered with 400, not with a server error. *)
Lemma invest_store_failure_answered_400 :
  invest fault_select_dashboard (JNum 1) (JNum 10) scenario_db
  = (Some (mkResponse 400 (BError "Connection terminated unexpectedly")),
     scenario_db).
Proof. vm_compute. reflexivity. Qed.

(** ** The first model inside the second *)

Lemma pg_int4_v_embed (pg16 : bool) (v : jsval) : pg_int4_v pg16 (embed_val v) = pg_int4 v.
Proof. destruct v; reflexivity. Qed.

Lemma fupd_dash_rows_embed (w t m id : Z) (l : list Dashboard) :
  fupd_dash_rows (DNum w) (DNum t) (DNum m) id (map embed_dash l)
  = map embed_dash (upd_dash_rows w t m id l).
Proof.
  unfold fupd_dash_rows, upd_dash_rows. rewrite !map_map.
  apply map_ext. intros d. simpl. destruct (d_id d =? id)%Z; reflexivity.
Qed.

Lemma f_invest_tx_embed (pg16 : bool) (flt : Fault) (assetId tokensToBuy : jsval) (q : Q) (db : DB) :
  to_number tokensToBuy = Some q ->
  f_invest_tx pg16 flt (embed_val assetId) (Fin q) (embed_val tokensToBuy) (embed_db db) =
  match invest_tx flt assetId tokensToBuy db with
  | Done (s, w, t, m) db' =>
      FDone (num_of_jsnum s, num_of_jsnum w, num_of_jsnum t, num_of_jsnum m) (embed_db db')
  | Thrown e => FThrown e
  end.
Proof.
  intros Hq.
  unfold f_invest_tx, invest_tx, q_begin, fq_select_asset, q_select_asset, fq_select_dash, q_select_dash,
    fq_update_asset, q_update_asset, fq_update_dash, q_update_dash, q_commit.
  unfold fbind, bind, fquery, query, fret, ret, fthrow, throw.
  rewrite !pg_int4_v_embed, Hq.
  destruct (flt QBegin); [reflexivity|].
  destruct (flt QSelAsset); [reflexivity|].
  destruct (pg_int4 assetId) as [|id|e]; simpl; try reflexivity.
  destruct (filter _ (assets db)) as [|asset rest]; [reflexivity|].
  destruct (negb (Qle_bool q (inject_Z (a_tokens_available asset)))); [reflexivity|].
  destruct (flt QSelDash); [reflexivity|].
  unfold embed_db at 1; simpl.
  destruct (dashboards db) as [|d ds] eqn:Hd; simpl; [reflexivity|].
  destruct (negb (Qle_bool (dec2 (a_price_per_token asset) * q) (dec2 (d_wallet_balance d)))); [reflexivity|].
  destruct (flt QUpdAsset); [reflexivity|].
  unfold embed_db; simpl. unfold Qminus.
  destruct (pg_int4 tokensToBuy) as [|t|e]; simpl; try reflexivity.
  all: repeat match goal with
         | |- context [if ?b then _ else _] => destruct b
         | |- context [match ?x with Some _ => _ | None => _ end] => destruct x
         end; simpl; try reflexivity.
  all: rewrite fupd_dash_rows_embed; reflexivity.
Qed.

(** X11: on a body whose fields are JSON numbers, booleans, [null] or
    missing, and a database whose dashboard amounts are numbers, the handler
    behaves the same on every PostgreSQL version and is the handler of the
    first model: same response, same committed database, in particular no
    [NaN] is ever stored. *)
Theorem f_invest_embed (pg16 : bool) (flt : Fault) (assetId tokensToBuy : jsval) (db : DB) :
  f_invest pg16 flt (embed_val assetId) (embed_val tokensToBuy) (embed_db db)
  = (option_map embed_response (fst (invest flt assetId tokensToBuy db)),
     embed_db (snd (invest flt assetId tokensToBuy db))).
Proof.
  unfold f_invest, invest, invalid_input.
  assert (Ht : forall v, vtruthy (embed_val v) = truthy v) by (destruct v; reflexivity).
  rewrite !Ht.
  destruct (negb (truthy assetId) || negb (truthy tokensToBuy)) eqn:Hv; [reflexivity|].
  simpl.
  destruct (to_number tokensToBuy) as [q|] eqn:Hq;
    [|destruct tokensToBuy; try discriminate; simpl in Hv; rewrite orb_true_r in Hv; discriminate].
  assert (Hn : to_num (embed_val tokensToBuy) = Some (Fin q))
    by (destruct tokensToBuy; simpl in *; try discriminate; injection Hq as <-; reflexivity).
  rewrite Hn. simpl.
  destruct (Qle_bool q 0); [reflexivity|]. simpl.
  destruct (flt QConnect); [reflexivity|].
  rewrite (f_invest_tx_embed pg16 flt assetId tokensToBuy q db Hq).
  destruct (invest_tx flt assetId tokensToBuy db) as [[[[s w] t] m] db'|e]; [reflexivity|].
  destruct (flt QRollback); reflexivity.
Qed.



(** ** Bootstrap *)

Lemma fold_insert_asset_dash (rows : list (string * string * Z * Z * Z)) (c : Cluster) :
  dash_tbl (fold_left insert_asset rows c) = dash_tbl c.
Proof.
  revert c. induction rows as [|row rows IH]; simpl; intros c; [reflexivity|].
  rewrite IH. destruct row as [[[[n l] a] p] t]. reflexivity.
Qed.

Lemma initDB_seeded :
  initDB fresh_cluster
  = mkCluster true (Some seeded_dashboards) (Some seeded_assets) 1 4.
Proof. vm_compute. reflexivity. Qed.

Lemma initDB_seeded_fixed :
  initDB (mkCluster true (Some seeded_dashboards) (Some seeded_assets) 1 4)
  = mkCluster true (Some seeded_dashboards) (Some seeded_assets) 1 4.
Proof. vm_compute. reflexivity. Qed.

(** C9: running the bootstrap once or any number of times on a fresh
    cluster leaves exactly one dashboard row and the four seeded assets;
    a table that already has rows is never seeded again nor overwritten. *)
Theorem initDB_idempotent :
  (forall n : nat,
     dash_tbl (Nat.iter (S n) initDB fresh_cluster) = Some seeded_dashboards /\
     asset_tbl (Nat.iter (S n) initDB fresh_cluster) = Some seeded_assets /\
     List.length seeded_dashboards = 1%nat /\ List.length seeded_assets = 4%nat) /\
  (forall c ds, dash_tbl c = Some ds -> ds <> [] -> dash_tbl (initDB c) = Some ds) /\
  (forall c as_, asset_tbl c = Some as_ -> as_ <> [] -> asset_tbl (initDB c) = Some as_).
Proof.
  split; [|split].
  - intros n.
    assert (Hit : Nat.iter (S n) initDB fresh_cluster
                  = mkCluster true (Some seeded_dashboards) (Some seeded_assets) 1 4).
    { induction n as [|n IH].
      - exact initDB_seeded.
      - change (Nat.iter (S (S n)) initDB fresh_cluster)
          with (initDB (Nat.iter (S n) initDB fresh_cluster)).
        rewrite IH. exact initDB_seeded_fixed. }
    rewrite Hit. repeat split.
  - intros [ex dt at_ ds0 as0] ds Hd Hne; simpl in Hd; subst dt.
    unfold initDB, ensureDatabaseExists, createTables, seedData.
    destruct ex; simpl; destruct ds as [|d ds]; try congruence;
      destruct at_ as [[|a as_]|]; simpl; try reflexivity;
      rewrite fold_insert_asset_dash; reflexivity.
  - intros [ex dt at_ ds0 as0] as_ Ha Hne; simpl in Ha; subst at_.
    unfold initDB, ensureDatabaseExists, createTables, seedData.
    destruct ex; simpl; destruct as_ as [|a as_]; try congruence;
      destruct dt as [[|d ds]|]; simpl; reflexivity.
Qed.

(** ** Witnesses: the theorems applied at concrete requests *)

Definition scenario_asset : Asset :=
  mkAsset 1 "Skyline Apartments" "New York, NY" 850 5000 1000.

Definition scenario_dashboard : Dashboard := mkDashboard 1 1500000 520000 43550.

Definition scenario_response : response :=
  mkResponse 200
    (BSuccess (Some (dec2 5000 * 10)) (Some (dec2 1500000 - dec2 5000 * 10))
              (Some (dec2 520000 + dec2 5000 * 10))
              (Some (dec2 43550 + dec2 5000 * 10 * (dec2 850 / 100) / 12))).

Definition scenario_after : DB :=
  mkDB [mkDashboard 1 1450000 570000 43904]
       [mkAsset 1 "Skyline Apartments" "New York, NY" 850 5000 990].

Lemma scenario_invest_result :
  invest no_fault (JNum 1) (JNum 10) scenario_db = (Some scenario_response, scenario_after).
Proof. vm_compute. reflexivity. Qed.


Lemma invest_monthly_yield_witness :
  (invest no_fault (JNum 1) (JNum 10) scenario_db = (Some scenario_response, scenario_after) /\
   status scenario_response = 200%Z) /\
  exists id q asset dash spent remaining total monthly dash',
    pg_int4 (JNum 1) = PInt id /\
    find_asset scenario_db id = Some asset /\
    first_dashboard scenario_db = Some dash /\
    to_number (JNum 10) = Some q /\
    rbody scenario_response
      = BSuccess (Some spent) (Some remaining) (Some total) (Some monthly) /\
    spent == dec2 (a_price_per_token asset) * q /\
    monthly == dec2 (d_monthly_yield dash) + (spent * (dec2 (a_apy asset) / 100)) / 12 /\
    first_dashboard scenario_after = Some dash' /\
    d_monthly_yield dash' = to_cents monthly.
Proof.
  split; [split; [exact scenario_invest_result | reflexivity]|].
  exact (invest_monthly_yield no_fault (JNum 1) (JNum 10) scenario_db
           scenario_after scenario_response scenario_invest_result eq_refl).
Defined.

Lemma invest_rejects_invalid_input_witness :
  (truthy (JNum 1) = false \/ truthy (JNum (-3)) = false \/
   exists q, to_number (JNum (-3)) = Some q /\ q <= 0) /\
  invest no_fault (JNum 1) (JNum (-3)) scenario_db
  = (Some (mkResponse 400 (BError msg_valid)), scenario_db).
Proof.
  assert (H : truthy (JNum 1) = false \/ truthy (JNum (-3)) = false \/
              exists q, to_number (JNum (-3)) = Some q /\ q <= 0).
  { right; right. exists (-3)%Q. split; [reflexivity|]. unfold Qle; simpl; lia. }
  split; [exact H|].
  exact (invest_rejects_invalid_input no_fault (JNum 1) (JNum (-3)) scenario_db H).
Defined.

Lemma invest_unknown_asset_witness :
  ((7 <> 0)%Z /\ (INT4_MIN <= 7 <= INT4_MAX)%Z /\ to_number (JNum 2) = Some 2 /\
   0 < 2 /\ find_asset scenario_db 7 = None) /\
  invest no_fault (JNum (inject_Z 7)) (JNum 2) scenario_db
  = (Some (mkResponse 400 (BError msg_asset_not_found)), scenario_db).
Proof.
  assert (H1 : (7 <> 0)%Z) by lia.
  assert (H2 : (INT4_MIN <= 7 <= INT4_MAX)%Z) by (unfold INT4_MIN, INT4_MAX; lia).
  assert (H4 : 0 < 2) by (unfold Qlt; simpl; lia).
  split; [exact (conj H1 (conj H2 (conj eq_refl (conj H4 eq_refl))))|].
  exact (invest_unknown_asset (JNum 2) scenario_db 7 2 H1 H2 eq_refl H4 eq_refl).
Defined.

Lemma invest_not_enough_tokens_witness :
  ((0 < 1 <= INT4_MAX)%Z /\ find_asset scenario_db 1 = Some scenario_asset /\
   (0 <= a_tokens_available scenario_asset)%Z) /\
  ((js_lt (Some (inject_Z (a_tokens_available scenario_asset))) (to_number (JNum 1001))
    = true ->
    invest no_fault (JNum (inject_Z 1)) (JNum 1001) scenario_db
    = (Some (mkResponse 400 (BError msg_tokens)), scenario_db)) /\
   (js_lt (Some (inject_Z (a_tokens_available scenario_asset))) (to_number (JNum 1001))
    = false ->
    fst (invest no_fault (JNum (inject_Z 1)) (JNum 1001) scenario_db)
    <> Some (mkResponse 400 (BError msg_tokens))) /\
   prefix "Not enough tokens available" msg_tokens = true).
Proof.
  assert (H1 : (0 < 1 <= INT4_MAX)%Z) by (unfold INT4_MAX; lia).
  assert (H3 : (0 <= a_tokens_available scenario_asset)%Z) by (simpl; lia).
  split; [exact (conj H1 (conj eq_refl H3))|].
  exact (invest_not_enough_tokens (JNum 1001) scenario_db 1 scenario_asset H1 eq_refl H3).
Defined.

Lemma invest_insufficient_balance_witness :
  ((0 < 1 <= INT4_MAX)%Z /\ find_asset scenario_db 1 = Some scenario_asset /\
   first_dashboard scenario_db = Some scenario_dashboard /\
   to_number (JNum 400) = Some 400 /\ 0 < 400 /\
   400 <= inject_Z (a_tokens_available scenario_asset) /\
   dec2 (d_wallet_balance scenario_dashboard) < dec2 (a_price_per_token scenario_asset) * 400) /\
  (invest no_fault (JNum (inject_Z 1)) (JNum 400) scenario_db
   = (Some (mkResponse 400 (BError msg_balance)), scenario_db) /\
   prefix "Insufficient wallet balance" msg_balance = true).
Proof.
  assert (H1 : (0 < 1 <= INT4_MAX)%Z) by (unfold INT4_MAX; lia).
  assert (H5 : 0 < 400) by (unfold Qlt; simpl; lia).
  assert (H6 : 400 <= inject_Z (a_tokens_available scenario_asset))
    by (unfold Qle; simpl; lia).
  assert (H7 : dec2 (d_wallet_balance scenario_dashboard)
               < dec2 (a_price_per_token scenario_asset) * 400)
    by (unfold Qlt; simpl; lia).
  split; [exact (conj H1 (conj eq_refl (conj eq_refl (conj eq_refl
            (conj H5 (conj H6 H7))))))|].
  exact (invest_insufficient_balance (JNum 400) scenario_db 1 scenario_asset
           scenario_dashboard 400 H1 eq_refl eq_refl eq_refl H5 H6 H7).
Defined.


Definition no_dashboard_db : DB := mkDB [] [scenario_asset].

Lemma invest_without_dashboard_witness :
  dashboards no_dashboard_db = [] /\
  ((forall flt assetId tokensToBuy r db',
      invest flt assetId tokensToBuy no_dashboard_db = (Some r, db') ->
      status r <> 200%Z /\ db' = no_dashboard_db) /\
   (forall tokensToBuy id asset q,
      (0 < id <= INT4_MAX)%Z ->
      find_asset no_dashboard_db id = Some asset ->
      to_number tokensToBuy = Some q -> 0 < q ->
      q <= inject_Z (a_tokens_available asset) ->
      invest no_fault (JNum (inject_Z id)) tokensToBuy no_dashboard_db
      = (Some (mkResponse 400 (BError msg_no_dashboard)), no_dashboard_db))).
Proof.
  split; [reflexivity|].
  exact (invest_without_dashboard no_dashboard_db eq_refl).
Defined.

(** * Further properties of the handler and of the rest of the server *)

Lemma pg_int4_PInt_range (v : jsval) (z : Z) :
  pg_int4 v = PInt z ->
  (INT4_MIN <= z <= INT4_MAX)%Z /\ exists q, v = JNum q /\ q == inject_Z z.
Proof.
  intros H. destruct (pg_int4_PInt v z H) as [q [Hq Hqz]].
  destruct v as [| | b | q']; simpl in H; try discriminate.
  simpl in Hq. injection Hq as <-.
  split; [|exists q'; split; [reflexivity|exact Hqz]].
  revert H. destruct (_ =? 0)%Z; [|discriminate].
  destruct ((INT4_MIN <=? Qnum q' / Z.pos (Qden q'))%Z
            && (Qnum q' / Z.pos (Qden q') <=? INT4_MAX)%Z) eqn:E.
  - intros [= <-]. apply andb_prop in E. destruct E as [E1 E2].
    apply Z.leb_le in E1. apply Z.leb_le in E2. lia.
  - match goal with |- (if ?b then _ else _) = _ -> _ => destruct b end;
      discriminate.
Qed.

Lemma valid_input_pos (assetId tokensToBuy : jsval) (q : Q) :
  invalid_input assetId tokensToBuy = false -> to_number tokensToBuy = Some q -> 0 < q.
Proof.
  unfold invalid_input. intros H Hq. rewrite Hq in H.
  apply orb_false_elim in H. destruct H as [_ H]. simpl in H.
  apply Qnot_le_lt. intros Hle. apply Qle_bool_iff in Hle. congruence.
Qed.

Lemma to_cents_mono (x y : Q) : x <= y -> (to_cents x <= to_cents y)%Z.
Proof.
  intros H. unfold to_cents.
  destruct (Qle_bool 0 x) eqn:Ex, (Qle_bool 0 y) eqn:Ey.
  - apply Qfloor_resp_le. lra.
  - exfalso. apply Qle_bool_iff in Ex.
    assert (0 <= y) by lra. apply Qle_bool_iff in H0. congruence.
  - assert (Hy : 0 <= y) by (apply Qle_bool_iff; exact Ey).
    assert (Hx : x < 0).
    { apply Qnot_le_lt. intros Hx. apply Qle_bool_iff in Hx. congruence. }
    assert (A : (0 <= Qfloor (- x * 100 + (1 # 2)))%Z).
    { change 0%Z with (Qfloor 0). apply Qfloor_resp_le. lra. }
    assert (B : (0 <= Qfloor (y * 100 + (1 # 2)))%Z).
    { change 0%Z with (Qfloor 0). apply Qfloor_resp_le. lra. }
    lia.
  - assert (Qfloor (- y * 100 + (1 # 2)) <= Qfloor (- x * 100 + (1 # 2)))%Z
      by (apply Qfloor_resp_le; lra).
    lia.
Qed.

(** X1: whatever the JSON body, the PostgreSQL version and the store
    failures, an invest that does not answer 200 (a 400, or no response at
    all) leaves both tables exactly as they were. *)
Theorem invest_failure_atomic (pg16 : bool) (flt : Fault) (assetId tokensToBuy : jvalue)
  (db : FDB) :
  (forall r, fst (f_invest pg16 flt assetId tokensToBuy db) = Some r ->
             f_status r <> 200%Z) ->
  snd (f_invest pg16 flt assetId tokensToBuy db) = db.
Proof.
  unfold f_invest. intros H.
  destruct (negb (vtruthy assetId) || negb (vtruthy tokensToBuy)); [reflexivity|].
  destruct (to_num tokensToBuy) as [tn|]; [|reflexivity].
  destruct (num_le tn (Fin 0)); [reflexivity|].
  destruct (flt QConnect); [reflexivity|].
  destruct (f_invest_tx pg16 flt assetId tn tokensToBuy db) as [[[[sp w] t] m] db'|e].
  - exfalso. apply (H _ eq_refl). reflexivity.
  - destruct (flt QRollback); reflexivity.
Qed.

(** X2: for a body whose fields are JSON numbers, booleans, [null] or
    missing ([jsval]), an invest succeeds only when [tokensToBuy] is a JSON
    number equal to
    an integer between 1 and 2147483647 (the [INTEGER] parameter of the
    asset update); [true], fractional or larger numbers never succeed. *)
Theorem invest_success_integer_tokens (flt : Fault) (assetId tokensToBuy : jsval)
  (db db' : DB) (r : response) :
  invest flt assetId tokensToBuy db = (Some r, db') -> status r = 200%Z ->
  exists q z, tokensToBuy = JNum q /\ q == inject_Z z /\ (1 <= z <= INT4_MAX)%Z.
Proof.
  intros H Hs.
  destruct (invest_200 _ _ _ _ _ _ H Hs) as (Hv & s & rm & t & m & T & _).
  destruct (invest_tx_done _ _ _ _ _ _ T)
    as (id & z & q & asset & rest & dash & w' & t' & m' &
        _ & _ & _ & _ & _ & _ & _ & _ & Hz & Hq & Hqz & _).
  destruct (pg_int4_PInt_range _ _ Hz) as [Hr (q' & -> & Hq'z)].
  simpl in Hq. inversion Hq; subst q'.
  pose proof (valid_input_pos _ _ _ Hv Hq) as Hpos.
  exists q, z. split; [reflexivity|]. split; [exact Hqz|].
  split; [|lia].
  assert (0 < inject_Z z) by (rewrite <- Hqz; exact Hpos).
  assert (H1 : (0 < z)%Z) by (rewrite Zlt_Qlt; exact H0). lia.
Qed.

Lemma to_cents_comp (x y : Q) : x == y -> to_cents x = to_cents y.
Proof.
  intros H. unfold to_cents.
  assert (E : Qle_bool 0 x = Qle_bool 0 y).
  { destruct (Qle_bool 0 x) eqn:Ex, (Qle_bool 0 y) eqn:Ey; try reflexivity.
    - apply Qle_bool_iff in Ex. rewrite H in Ex. apply Qle_bool_iff in Ex. congruence.
    - apply Qle_bool_iff in Ey. rewrite <- H in Ey. apply Qle_bool_iff in Ey. congruence. }
  rewrite E. destruct (Qle_bool 0 y).
  - apply Qfloor_comp. rewrite H. reflexivity.
  - f_equal. apply Qfloor_comp. rewrite H. reflexivity.
Qed.

(** The committed view of a successful transaction, in stored units. *)
Lemma invest_tx_commit (flt : Fault) (assetId tokensToBuy : jsval) (db : DB) r db' :
  invest_tx flt assetId tokensToBuy db = Done r db' ->
  exists id z asset dash m',
    pg_int4 assetId = PInt id /\ pg_int4 tokensToBuy = PInt z /\
    find_asset db id = Some asset /\ first_dashboard db = Some dash /\
    (z <= a_tokens_available asset)%Z /\
    (a_price_per_token asset * z <= d_wallet_balance dash)%Z /\
    m' = to_cents (dec2 (d_monthly_yield dash)
                   + dec2 (a_price_per_token asset) * inject_Z z
                     * (dec2 (a_apy asset) / 100) / 12) /\
    db' = mkDB (upd_dash_rows (d_wallet_balance dash - a_price_per_token asset * z)
                              (d_total_investment dash + a_price_per_token asset * z)
                              m' (d_id dash) (dashboards db))
               (upd_asset_rows z id (assets db)).
Proof.
  intros T.
  destruct (invest_tx_done _ _ _ _ _ _ T)
    as (id & z & q & asset & rest & dash & w' & t' & m' &
        _ & _ & _ & _ & _ & _ & Hid & Hf & Hz & Hq & Hqz & Hlt1 & Hd & Hlt2 &
        Hw & Ht & Hm & _ & Hdb & _).
  exists id, z, asset, dash, m'.
  apply js_lt_false in Hlt1. apply js_lt_false in Hlt2.
  rewrite Hqz in Hlt1, Hlt2.
  repeat split; try assumption.
  - unfold find_asset. apply (filter_cons_find _ _ _ _ Hf).
  - rewrite Zle_Qle. exact Hlt1.
  - revert Hlt2. unfold dec2, Qle; simpl. lia.
  - rewrite (numeric_cents _ _ Hm). apply to_cents_comp. rewrite Hqz. reflexivity.
  - rewrite Hdb.
    rewrite (numeric_exact _ _ (d_wallet_balance dash - a_price_per_token asset * z) Hw)
      by (rewrite Hqz; unfold dec2, Qeq; simpl; ring).
    rewrite (numeric_exact _ _ (d_total_investment dash + a_price_per_token asset * z) Ht)
      by (rewrite Hqz; unfold dec2, Qeq; simpl; ring).
    reflexivity.
Qed.

Lemma map_static_upd_asset_rows (z id : Z) (l : list Asset) :
  map asset_static (upd_asset_rows z id l) = map asset_static l.
Proof.
  induction l as [|x l IH]; simpl; [reflexivity|].
  destruct (a_id x =? id)%Z; simpl; rewrite IH; reflexivity.
Qed.

Lemma map_d_id_upd_dash_rows (w t m id : Z) (l : list Dashboard) :
  map d_id (upd_dash_rows w t m id l) = map d_id l.
Proof.
  induction l as [|x l IH]; simpl; [reflexivity|].
  destruct (d_id x =? id)%Z; simpl; rewrite IH; reflexivity.
Qed.

Lemma invest_success_commit (flt : Fault) (assetId tokensToBuy : jsval)
  (db db' : DB) (r : response) :
  invest flt assetId tokensToBuy db = (Some r, db') -> status r = 200%Z ->
  invalid_input assetId tokensToBuy = false /\
  exists id z asset dash m',
    pg_int4 assetId = PInt id /\ pg_int4 tokensToBuy = PInt z /\
    find_asset db id = Some asset /\ first_dashboard db = Some dash /\
    (z <= a_tokens_available asset)%Z /\
    (a_price_per_token asset * z <= d_wallet_balance dash)%Z /\
    m' = to_cents (dec2 (d_monthly_yield dash)
                   + dec2 (a_price_per_token asset) * inject_Z z
                     * (dec2 (a_apy asset) / 100) / 12) /\
    db' = mkDB (upd_dash_rows (d_wallet_balance dash - a_price_per_token asset * z)
                              (d_total_investment dash + a_price_per_token asset * z)
                              m' (d_id dash) (dashboards db))
               (upd_asset_rows z id (assets db)).
Proof.
  intros H Hs.
  destruct (invest_200 _ _ _ _ _ _ H Hs) as (Hv & s & rm & t & m & T & _).
  split; [exact Hv|]. exact (invest_tx_commit _ _ _ _ _ _ T).
Qed.

(** X3: a successful invest writes only the [tokens_available] of the rows
    whose id is the requested [assetId] and the three amounts of the rows
    whose id is that of the dashboard row read first: no row is added or
    removed, no id, name, location, apy or price changes, and every other
    asset row and dashboard row is kept as it was. *)
Theorem invest_success_frame (flt : Fault) (assetId tokensToBuy : jsval)
  (db db' : DB) (r : response) (id : Z) (dash : Dashboard) :
  invest flt assetId tokensToBuy db = (Some r, db') -> status r = 200%Z ->
  pg_int4 assetId = PInt id -> first_dashboard db = Some dash ->
  map asset_static (assets db') = map asset_static (assets db) /\
  (forall a, In a (assets db) -> a_id a <> id -> In a (assets db')) /\
  map d_id (dashboards db') = map d_id (dashboards db) /\
  (forall d, In d (dashboards db) -> d_id d <> d_id dash -> In d (dashboards db')).
Proof.
  intros H Hs Hid Hd.
  destruct (invest_success_commit _ _ _ _ _ _ H Hs)
    as (_ & id0 & z & asset & dash0 & m' & Hid0 & _ & _ & Hd0 & _ & _ & _ & ->).
  rewrite Hid in Hid0. injection Hid0 as <-.
  rewrite Hd in Hd0. injection Hd0 as <-. simpl.
  split; [apply map_static_upd_asset_rows|].
  split.
  - intros a Ha Hne. unfold upd_asset_rows. apply in_map_iff. exists a.
    split; [|exact Ha]. apply Z.eqb_neq in Hne. rewrite Hne. reflexivity.
  - split; [apply map_d_id_upd_dash_rows|].
    intros d Hin Hne. unfold upd_dash_rows. apply in_map_iff. exists d.
    split; [|exact Hin]. apply Z.eqb_neq in Hne. rewrite Hne. reflexivity.
Qed.

Lemma invest_conserve_value (flt : Fault) (assetId tokensToBuy : jsval) (db : DB)
  (d : Dashboard) :
  dashboards db = [d] ->
  exists d', dashboards (snd (invest flt assetId tokensToBuy db)) = [d'] /\
    d_id d' = d_id d /\
    (d_wallet_balance d' + d_total_investment d'
     = d_wallet_balance d + d_total_investment d)%Z.
Proof.
  intros Hd.
  destruct (invest_result flt assetId tokensToBuy db) as [->|(s & rm & t & m & T & _)];
    [exists d; repeat split; assumption|].
  destruct (invest_tx_commit _ _ _ _ _ _ T)
    as (id & z & asset & dash & m' & _ & _ & _ & Hd0 & _ & _ & _ & ->).
  unfold first_dashboard in Hd0. rewrite Hd in Hd0. injection Hd0 as <-.
  simpl. rewrite Hd. simpl. rewrite Z.eqb_refl.
  eexists. split; [reflexivity|]. simpl. split; [reflexivity|]. ring.
Qed.

(** X4: on a database with a single dashboard row, any finite sequence of
    invest requests whose fields are JSON numbers, booleans, [null] or
    missing ([jsval]), each succeeding or failing, with any store failures,
    keeps that single row (same id) and keeps [wallet_balance +
    total_investment] constant: what leaves the wallet is exactly what is
    added to the investment total. *)
Theorem run_invests_conserve_value (reqs : list (Fault * jsval * jsval)) (db : DB)
  (d : Dashboard) :
  dashboards db = [d] ->
  exists d', dashboards (run_invests reqs db) = [d'] /\ d_id d' = d_id d /\
    (d_wallet_balance d' + d_total_investment d'
     = d_wallet_balance d + d_total_investment d)%Z.
Proof.
  revert db d. induction reqs as [|[[flt a] t] reqs IH]; simpl; intros db d Hd.
  - exists d. repeat split; assumption.
  - destruct (invest_conserve_value flt a t db d Hd) as (d1 & Hd1 & Hid1 & Hs1).
    destruct (IH _ _ Hd1) as (d2 & Hd2 & Hid2 & Hs2).
    exists d2. repeat split; [exact Hd2|congruence|lia].
Qed.

Lemma dec2_nonneg (c : Z) : (0 <= c)%Z -> 0 <= dec2 c.
Proof. intros H. unfold dec2, Qle; simpl. lia. Qed.

(** X5: when the bought asset has a non-negative apy and price, a
    successful invest never lowers the stored [monthly_yield] nor the
    stored [total_investment] of the dashboard row it updates. *)
Theorem invest_success_monotone (flt : Fault) (assetId tokensToBuy : jsval)
  (db db' : DB) (r : response) (id : Z) (asset : Asset) (dash dash' : Dashboard) :
  invest flt assetId tokensToBuy db = (Some r, db') -> status r = 200%Z ->
  pg_int4 assetId = PInt id -> find_asset db id = Some asset ->
  (0 <= a_apy asset)%Z -> (0 <= a_price_per_token asset)%Z ->
  first_dashboard db = Some dash -> first_dashboard db' = Some dash' ->
  (d_monthly_yield dash <= d_monthly_yield dash')%Z /\
  (d_total_investment dash <= d_total_investment dash')%Z.
Proof.
  intros H Hs Hid Ha Hapy Hp Hd Hd'.
  destruct (invest_success_commit _ _ _ _ _ _ H Hs)
    as (Hv & id0 & z & asset0 & dash0 & m' & Hid0 & Hz & Ha0 & Hd0 & _ & _ & Hm & Hdb).
  rewrite Hid in Hid0. injection Hid0 as <-.
  rewrite Ha in Ha0. injection Ha0 as <-.
  rewrite Hd in Hd0. injection Hd0 as <-.
  assert (Hz0 : (0 <= z)%Z).
  { destruct (pg_int4_PInt _ _ Hz) as [q [Hq Hqz]].
    pose proof (valid_input_pos _ _ _ Hv Hq) as Hpos.
    rewrite Hqz in Hpos. apply Zlt_le_weak. rewrite Zlt_Qlt. exact Hpos. }
  subst db'. unfold first_dashboard in Hd, Hd'. simpl in Hd'.
  destruct (dashboards db) as [|d0 ds]; [discriminate|].
  injection Hd as <-. simpl in Hd'. rewrite Z.eqb_refl in Hd'.
  injection Hd' as <-. simpl. split; [|nia].
  rewrite Hm. rewrite <- (to_cents_exact (dec2 (d_monthly_yield d0))
                            (d_monthly_yield d0)) at 1 by reflexivity.
  apply to_cents_mono.
  assert (0 <= dec2 (a_price_per_token asset) * inject_Z z
               * (dec2 (a_apy asset) / 100) / 12).
  { unfold Qdiv. repeat apply Qmult_le_0_compat; try (apply dec2_nonneg; assumption);
      try (apply Qinv_le_0_compat); try discriminate.
    all: change 0 with (inject_Z 0); rewrite <- Zle_Qle; exact Hz0. }
  lra.
Qed.

(** X6: over every JSON body and every PostgreSQL version, the handler
    sends no response exactly when both fields are truthy and either
    converting [tokensToBuy] to a number throws a [TypeError], or
    [tokensToBuy > 0] and [pool.connect()] fails, or the transaction fails
    and its [ROLLBACK] fails too.  The client then gets a 500 under
    Express 5 and nothing under Express 4, and the database is unchanged. *)
Theorem invest_no_response (v : express_version) (pg16 : bool) (flt : Fault)
  (assetId tokensToBuy : jvalue) (db : FDB) :
  (fst (f_invest pg16 flt assetId tokensToBuy db) = None <->
   vtruthy assetId = true /\ vtruthy tokensToBuy = true /\
   (to_num tokensToBuy = None \/
    exists tn, to_num tokensToBuy = Some tn /\ num_le tn (Fin 0) = false /\
      (flt QConnect <> None \/
       (flt QConnect = None /\
        (exists e, f_invest_tx pg16 flt assetId tn tokensToBuy db = FThrown e) /\
        flt QRollback <> None)))) /\
  (fst (f_invest pg16 flt assetId tokensToBuy db) = None ->
   served v (option_map f_status (fst (f_invest pg16 flt assetId tokensToBuy db)))
     = match v with Express4 => None | Express5 => Some 500%Z end /\
   snd (f_invest pg16 flt assetId tokensToBuy db) = db).
Proof.
  unfold f_invest.
  destruct (vtruthy assetId) eqn:Ha; destruct (vtruthy tokensToBuy) eqn:Ht; simpl;
    try (split; [split; [discriminate|intros (H1 & H2 & _); discriminate]|discriminate]).
  destruct (to_num tokensToBuy) as [tn|] eqn:Hn.
  2: { split; [split; [intros _; auto|reflexivity]|intros _; split; [destruct v|]; reflexivity]. }
  destruct (num_le tn (Fin 0)) eqn:Hle; simpl.
  { split; [split; [discriminate|]|discriminate].
    intros (_ & _ & [[=]|(tn' & [= <-] & Hle' & _)]). congruence. }
  destruct (flt QConnect) as [c|] eqn:Hc.
  { split; [split; [intros _; split; [reflexivity|split; [reflexivity|]];
                   right; exists tn; repeat split; auto; left; discriminate
                  |reflexivity]
           |intros _; split; [destruct v|]; reflexivity]. }
  destruct (f_invest_tx pg16 flt assetId tn tokensToBuy db) as [[[[sp w] t] m] db'|e] eqn:T.
  { split; [split; [discriminate|]|discriminate].
    intros (_ & _ & [[=]|(tn' & [= <-] & _ & [Hc'|(_ & [e T'] & _)])]); congruence. }
  destruct (flt QRollback) as [rb|] eqn:Hrb.
  - split; [split; [intros _; split; [reflexivity|split; [reflexivity|]];
                   right; exists tn; repeat split; auto; right;
                   repeat split; [exists e; exact T|discriminate]
                  |reflexivity]
           |intros _; split; [destruct v|]; reflexivity].
  - split; [split; [discriminate|]|discriminate].
    intros (_ & _ & [[=]|(tn' & [= <-] & _ & [Hc'|(_ & _ & Hrb')])]); congruence.
Qed.

(** ** The read endpoints *)

Lemma insert_by_id_perm (a : Asset) (l : list Asset) :
  Permutation (insert_by_id a l) (a :: l).
Proof.
  induction l as [|b l IH]; simpl; [reflexivity|].
  destruct (a_id a <=? a_id b)%Z; [reflexivity|].
  rewrite IH. apply perm_swap.
Qed.

Lemma sort_by_id_perm (l : list Asset) : Permutation (sort_by_id l) l.
Proof.
  induction l as [|a l IH]; simpl; [reflexivity|].
  rewrite insert_by_id_perm. apply perm_skip. exact IH.
Qed.

Definition id_le (a b : Asset) : Prop := (a_id a <= a_id b)%Z.
Definition id_lt (a b : Asset) : Prop := (a_id a < a_id b)%Z.

Lemma insert_by_id_hd (a b : Asset) (l : list Asset) :
  HdRel id_le b l -> id_le b a -> HdRel id_le b (insert_by_id a l).
Proof.
  intros H Hba. destruct l as [|c l]; simpl.
  - constructor. exact Hba.
  - destruct (a_id a <=? a_id c)%Z; constructor; [exact Hba|].
    exact (HdRel_inv H).
Qed.

Lemma insert_by_id_sorted (a : Asset) (l : list Asset) :
  Sorted id_le l -> Sorted id_le (insert_by_id a l).
Proof.
  induction l as [|b l IH]; simpl; intros H.
  - repeat constructor.
  - destruct (a_id a <=? a_id b)%Z eqn:E.
    + constructor; [exact H|]. constructor. apply Z.leb_le. exact E.
    + apply Sorted_inv in H. destruct H as [Hs Hhd].
      constructor; [apply IH; exact Hs|].
      apply insert_by_id_hd; [exact Hhd|].
      apply Z.leb_gt in E. unfold id_le. lia.
Qed.

Lemma sort_by_id_sorted (l : list Asset) : Sorted id_le (sort_by_id l).
Proof.
  induction l as [|a l IH]; simpl; [constructor|].
  apply insert_by_id_sorted. exact IH.
Qed.

Lemma sorted_le_lt (l : list Asset) :
  Sorted id_le l -> NoDup (map a_id l) -> Sorted id_lt l.
Proof.
  induction l as [|a l IH]; intros Hs Hnd; [constructor|].
  apply Sorted_inv in Hs. destruct Hs as [Hs Hhd].
  simpl in Hnd. inversion Hnd as [|x xs Hnotin Hnd']; subst.
  constructor; [apply IH; assumption|].
  destruct l as [|b l]; constructor.
  apply HdRel_inv in Hhd. unfold id_le, id_lt in *.
  assert (a_id a <> a_id b) by (intros E; apply Hnotin; rewrite E; left; reflexivity).
  lia.
Qed.

Lemma insert_by_id_map (f : Asset -> Asset) (Hf : forall a, a_id (f a) = a_id a)
  (a : Asset) (l : list Asset) :
  insert_by_id (f a) (map f l) = map f (insert_by_id a l).
Proof.
  induction l as [|b l IH]; simpl; [reflexivity|].
  rewrite !Hf. destruct (a_id a <=? a_id b)%Z; simpl; [reflexivity|].
  rewrite IH. reflexivity.
Qed.

Lemma sort_by_id_map (f : Asset -> Asset) (Hf : forall a, a_id (f a) = a_id a)
  (l : list Asset) :
  sort_by_id (map f l) = map f (sort_by_id l).
Proof.
  induction l as [|a l IH]; simpl; [reflexivity|].
  rewrite IH. apply insert_by_id_map. exact Hf.
Qed.

Lemma sort_by_id_upd (z id : Z) (l : list Asset) :
  sort_by_id (upd_asset_rows z id l) = upd_asset_rows z id (sort_by_id l).
Proof.
  apply sort_by_id_map. intros a. destruct (a_id a =? id)%Z; reflexivity.
Qed.

Lemma sorted_lt_perm_unique (l1 l2 : list Asset) :
  Sorted id_lt l1 -> Sorted id_lt l2 -> Permutation l1 l2 -> l1 = l2.
Proof.
  assert (Htr : Relations_1.Transitive id_lt) by (unfold id_lt; intros x y w; lia).
  revert l2. induction l1 as [|a l1 IH]; intros l2 H1 H2 Hp.
  - symmetry. apply Permutation_nil. exact Hp.
  - destruct l2 as [|b l2]; [apply Permutation_sym, Permutation_nil_cons in Hp; contradiction|].
    apply Sorted_StronglySorted in H1; [|exact Htr].
    apply Sorted_StronglySorted in H2; [|exact Htr].
    inversion H1 as [|? ? S1 F1]; inversion H2 as [|? ? S2 F2]; subst.
    assert (Hab : a = b).
    { destruct (Permutation_in a Hp (or_introl eq_refl)) as [->|Ha]; [reflexivity|].
      destruct (Permutation_in b (Permutation_sym Hp) (or_introl eq_refl)) as [->|Hb];
        [reflexivity|].
      rewrite Forall_forall in F1, F2. specialize (F1 b Hb). specialize (F2 a Ha).
      unfold id_lt in *. lia. }
    subst b. f_equal. apply IH.
    + apply StronglySorted_Sorted. exact S1.
    + apply StronglySorted_Sorted. exact S2.
    + apply Permutation_cons_inv in Hp. exact Hp.
Qed.

(** X7: after a successful invest, [GET /assets] answers 200 with the
    rows it answered before, in the same order, where only the bought
    asset's [tokens_available] has dropped by [tokensToBuy]; when the asset
    ids are unique (the primary key) that answer is the only list of the
    table's rows in ascending id order, whatever way the sort is done. *)
Theorem invest_then_get_assets (flt : Fault) (assetId tokensToBuy : jsval)
  (db db' : DB) (r : response) :
  invest flt assetId tokensToBuy db = (Some r, db') -> status r = 200%Z ->
  exists id z rows,
    pg_int4 assetId = PInt id /\ pg_int4 tokensToBuy = PInt z /\
    get_assets None db = mkGetResponse 200 (GAssets rows) /\
    get_assets None db' = mkGetResponse 200 (GAssets (upd_asset_rows z id rows)) /\
    (NoDup (map a_id (assets db)) ->
     forall rows', Permutation rows' (assets db') -> Sorted id_le rows' ->
       rows' = upd_asset_rows z id rows).
Proof.
  intros H Hs.
  destruct (invest_200 _ _ _ _ _ _ H Hs) as (_ & s & rm & t & m & T & _).
  destruct (invest_tx_done _ _ _ _ _ _ T)
    as (id & z & q & asset & rest & dash & w' & t' & m' &
        _ & _ & _ & _ & _ & _ & Hid & _ & Hz & _ & _ & _ & _ & _ & _ & _ & _ & _ & Hdb & _).
  exists id, z, (sort_by_id (assets db)).
  split; [exact Hid|]. split; [exact Hz|]. split; [reflexivity|].
  assert (Hget : sort_by_id (assets db') = upd_asset_rows z id (sort_by_id (assets db)))
    by (rewrite Hdb; simpl; apply sort_by_id_upd).
  split; [unfold get_assets; rewrite Hget; reflexivity|].
  intros Hnd rows' Hp Hsort.
  assert (Hnd' : NoDup (map a_id (assets db')))
    by (rewrite Hdb; simpl; rewrite map_a_id_upd_asset_rows; exact Hnd).
  rewrite <- Hget. apply sorted_lt_perm_unique.
  - apply sorted_le_lt; [exact Hsort|].
    apply (Permutation_NoDup (Permutation_map a_id (Permutation_sym Hp))). exact Hnd'.
  - apply sorted_le_lt; [apply sort_by_id_sorted|].
    apply (Permutation_NoDup (Permutation_map a_id (Permutation_sym (sort_by_id_perm _)))).
    exact Hnd'.
  - rewrite Hp. symmetry. apply sort_by_id_perm.
Qed.

(** X8: on a dashboard table with a single row (so that both
    [LIMIT 1] reads see it), after a successful invest, [GET /dashboard]
    answers 200 with the row the invest updated: its [wallet_balance] and [total_investment] are
    exactly the [remainingBalance] and [newTotalInvestment] of the invest
    response, its [monthly_yield] is [newMonthlyYield] rounded to two
    decimals. *)
Theorem invest_then_get_dashboard (flt : Fault) (assetId tokensToBuy : jsval)
  (db db' : DB) (r : response) :
  List.length (dashboards db) = 1%nat ->
  invest flt assetId tokensToBuy db = (Some r, db') -> status r = 200%Z ->
  exists spent remaining total monthly dash',
    rbody r = BSuccess (Some spent) (Some remaining) (Some total) (Some monthly) /\
    get_dashboard None db' = mkGetResponse 200 (GDashboard (Some dash')) /\
    dec2 (d_wallet_balance dash') == remaining /\
    dec2 (d_total_investment dash') == total /\
    d_monthly_yield dash' = to_cents monthly.
Proof.
  intros _ H Hs.
  destruct (invest_200 _ _ _ _ _ _ H Hs) as (_ & s & rm & t & m & T & ->).
  destruct (invest_tx_done _ _ _ _ _ _ T)
    as (id & z & q & asset & rest & dash & w' & t' & m' &
        _ & _ & _ & _ & _ & _ & _ & _ & _ & _ & Hqz & _ & Hd & _ &
        Hw & Ht & Hm & _ & Hdb & Hr).
  inversion Hr; subst s rm t m. subst db'.
  do 4 eexists. exists (mkDashboard (d_id dash) w' t' m').
  split; [reflexivity|].
  split.
  - unfold get_dashboard, first_dashboard in *; simpl.
    destruct (dashboards db) as [|d0 ds]; [discriminate|].
    simpl in Hd. injection Hd as <-. simpl. rewrite Z.eqb_refl. reflexivity.
  - simpl. split; [|split].
    + rewrite (numeric_exact _ _ (d_wallet_balance dash - a_price_per_token asset * z) Hw)
        by (rewrite Hqz; unfold dec2, Qeq; simpl; ring).
      rewrite Hqz. unfold dec2, Qeq; simpl. ring.
    + rewrite (numeric_exact _ _ (d_total_investment dash + a_price_per_token asset * z) Ht)
        by (rewrite Hqz; unfold dec2, Qeq; simpl; ring).
      rewrite Hqz. unfold dec2, Qeq; simpl. ring.
    + apply (numeric_cents _ _ Hm).
Qed.

(** ** The bootstrap with failing queries *)

Lemma insert_assets_f_ok (i : nat) (rows : list (string * string * Z * Z * Z))
  (c : Cluster) :
  insert_assets_f (fun _ => None) i rows c = fold_left insert_asset rows c.
Proof.
  revert i c. induction rows as [|row rows IH]; simpl; intros i c; [reflexivity|].
  apply IH.
Qed.

(** Without failures the bootstrap is [initDB]. *)
Lemma initDB_f_ok (c : Cluster) : initDB_f (fun _ => None) c = initDB c.
Proof.
  unfold initDB_f, initDB, seedData_f, seedData.
  destruct (dash_tbl (createTables (ensureDatabaseExists c))) as [[|d ds]|];
    [|reflexivity|reflexivity].
  destruct (asset_tbl _) as [[|a as_]|]; try reflexivity; apply insert_assets_f_ok.
Qed.

Lemma iter_fixed {A} (f : A -> A) (x : A) (n : nat) : f x = x -> Nat.iter n f x = x.
Proof.
  intros H. induction n as [|n IH]; simpl; [reflexivity|]. rewrite IH. exact H.
Qed.

Definition partial_cluster (i : nat) (k : FailAt) : Cluster :=
  mkCluster true (Some seeded_dashboards) (Some (firstn i seeded_assets))
            1 (if (i <? 4)%nat
               then match k with AfterNextval => Z.of_nat (S i) | BeforeNextval => Z.of_nat i end
               else 4).

(** X9: when the insert of [dummyAssets[i]] fails during the first
    bootstrap of a fresh cluster, with [i >= 1], the assets table keeps the
    [i] rows already inserted and no later bootstrap ever adds the missing
    ones: the table is not empty, so [seedData] skips it.  This holds
    whether or not the failed insert consumed a sequence value. *)
Theorem initDB_partial_seed_permanent (i n : nat) (k : FailAt) :
  (1 <= i)%nat ->
  dash_tbl (Nat.iter n initDB (initDB_f (fails_at (BInsertAsset i) k) fresh_cluster))
    = Some seeded_dashboards /\
  asset_tbl (Nat.iter n initDB (initDB_f (fails_at (BInsertAsset i) k) fresh_cluster))
    = Some (firstn i seeded_assets).
Proof.
  intros Hi.
  assert (H : initDB_f (fails_at (BInsertAsset i) k) fresh_cluster = partial_cluster i k
              /\ initDB (partial_cluster i k) = partial_cluster i k).
  { destruct i as [|[|[|[|i]]]]; [lia| | | |];
      try (destruct k; split; vm_compute; reflexivity).
    unfold partial_cluster. rewrite (firstn_all2 seeded_assets) by (simpl; lia).
    change (S (S (S (S i))) <? 4)%nat with false. cbv iota.
    split; [|exact initDB_seeded_fixed].
    vm_compute. reflexivity. }
  destruct H as [H1 H2]. rewrite H1, (iter_fixed _ _ n H2). split; reflexivity.
Qed.

(** X10: when a query fails before the first asset row is inserted (the
    table creation, a row count, the dashboard insert or the first asset
    insert), the first bootstrap of a fresh cluster seeds no asset, and the
    next bootstrap without failure seeds the rows a bootstrap without
    failure seeds; only their ids differ when the failed insert had
    consumed a sequence value: the dashboard then gets id 2, or the assets
    ids 2 to 5. *)
Theorem initDB_recovers_early_failure (s : BootStep) (k : FailAt) :
  In s [BCreateTables; BCountDash; BInsertDash; BCountAssets; BInsertAsset 0] ->
  (asset_tbl (initDB_f (fails_at s k) fresh_cluster) = None \/
   asset_tbl (initDB_f (fails_at s k) fresh_cluster) = Some []) /\
  initDB (initDB_f (fails_at s k) fresh_cluster)
    = seeded_cluster_from
        (match s, k with BInsertDash, AfterNextval => 1 | _, _ => 0 end)
        (match s, k with BInsertAsset 0, AfterNextval => 1 | _, _ => 0 end) /\
  initDB fresh_cluster = seeded_cluster_from 0 0.
Proof.
  simpl. intros Hs.
  repeat destruct Hs as [<-|Hs]; try contradiction; destruct k;
    (split; [vm_compute; auto|split; vm_compute; reflexivity]).
Qed.

(** ** Witnesses of the further properties *)

(** The pool cannot reach the server. *)
Definition fault_connect : Fault :=
  fun k => match k with
           | QConnect => Some "connect ECONNREFUSED 127.0.0.1:5432"
           | _ => None
           end.

Lemma invest_failure_atomic_witness :
  (forall r, fst (f_invest true fault_select_dashboard (VNum (Fin 1)) (VStr "10") seeded_fdb)
             = Some r -> f_status r <> 200%Z) /\
  fst (f_invest true fault_select_dashboard (VNum (Fin 1)) (VStr "10") seeded_fdb)
    = Some (mkFResponse 400 (FError "Connection terminated unexpectedly")) /\
  snd (f_invest true fault_select_dashboard (VNum (Fin 1)) (VStr "10") seeded_fdb)
    = seeded_fdb.
Proof.
  assert (H : forall r, fst (f_invest true fault_select_dashboard (VNum (Fin 1)) (VStr "10")
                               seeded_fdb) = Some r -> f_status r <> 200%Z).
  { intros r Hr. vm_compute in Hr. injection Hr as <-. discriminate. }
  split; [exact H|]. split; [vm_compute; reflexivity|].
  exact (invest_failure_atomic true fault_select_dashboard (VNum (Fin 1)) (VStr "10")
           seeded_fdb H).
Defined.

Lemma invest_success_integer_tokens_witness :
  (invest no_fault (JNum 1) (JNum 10) scenario_db = (Some scenario_response, scenario_after) /\
   status scenario_response = 200%Z) /\
  exists q z, JNum 10 = JNum q /\ q == inject_Z z /\ (1 <= z <= INT4_MAX)%Z.
Proof.
  split; [split; [exact scenario_invest_result | reflexivity]|].
  exact (invest_success_integer_tokens no_fault (JNum 1) (JNum 10) scenario_db
           scenario_after scenario_response scenario_invest_result eq_refl).
Defined.

Lemma invest_success_frame_witness :
  (pg_int4 (JNum 1) = PInt 1 /\ first_dashboard scenario_db = Some scenario_dashboard) /\
  map asset_static (assets scenario_after) = map asset_static (assets scenario_db) /\
  (forall a, In a (assets scenario_db) -> a_id a <> 1%Z -> In a (assets scenario_after)) /\
  map d_id (dashboards scenario_after) = map d_id (dashboards scenario_db) /\
  (forall d, In d (dashboards scenario_db) -> d_id d <> d_id scenario_dashboard ->
             In d (dashboards scenario_after)).
Proof.
  split; [split; reflexivity|].
  exact (invest_success_frame no_fault (JNum 1) (JNum 10) scenario_db scenario_after
           scenario_response 1 scenario_dashboard scenario_invest_result eq_refl
           eq_refl eq_refl).
Defined.

Lemma run_invests_conserve_value_witness :
  dashboards scenario_db = [scenario_dashboard] /\
  exists d', dashboards (run_invests [(no_fault, JNum 1, JNum 10);
                                      (fault_select_dashboard, JNum 1, JNum 5);
                                      (no_fault, JNum 1, JNum 20)] scenario_db) = [d'] /\
    d_id d' = d_id scenario_dashboard /\
    (d_wallet_balance d' + d_total_investment d'
     = d_wallet_balance scenario_dashboard + d_total_investment scenario_dashboard)%Z.
Proof.
  split; [reflexivity|].
  exact (run_invests_conserve_value _ scenario_db scenario_dashboard eq_refl).
Defined.

Lemma invest_success_monotone_witness :
  (find_asset scenario_db 1 = Some scenario_asset /\
   (0 <= a_apy scenario_asset)%Z /\ (0 <= a_price_per_token scenario_asset)%Z /\
   first_dashboard scenario_after = Some (mkDashboard 1 1450000 570000 43904)) /\
  (d_monthly_yield scenario_dashboard <= 43904)%Z /\
  (d_total_investment scenario_dashboard <= 570000)%Z.
Proof.
  split; [repeat split; try reflexivity; discriminate|].
  exact (invest_success_monotone no_fault (JNum 1) (JNum 10) scenario_db scenario_after
           scenario_response 1 scenario_asset scenario_dashboard
           (mkDashboard 1 1450000 570000 43904) scenario_invest_result eq_refl
           eq_refl eq_refl ltac:(discriminate) ltac:(discriminate) eq_refl eq_refl).
Defined.

Lemma invest_then_get_dashboard_witness :
  (List.length (dashboards scenario_db) = 1%nat /\
   invest no_fault (JNum 1) (JNum 10) scenario_db = (Some scenario_response, scenario_after) /\
   status scenario_response = 200%Z) /\
  exists spent remaining total monthly dash',
    rbody scenario_response = BSuccess (Some spent) (Some remaining) (Some total) (Some monthly) /\
    get_dashboard None scenario_after = mkGetResponse 200 (GDashboard (Some dash')) /\
    dec2 (d_wallet_balance dash') == remaining /\
    dec2 (d_total_investment dash') == total /\
    d_monthly_yield dash' = to_cents monthly.
Proof.
  split; [split; [reflexivity|split; [exact scenario_invest_result | reflexivity]]|].
  exact (invest_then_get_dashboard no_fault (JNum 1) (JNum 10) scenario_db
           scenario_after scenario_response eq_refl scenario_invest_result eq_refl).
Defined.

Lemma initDB_partial_seed_permanent_witness :
  (1 <= 2)%nat /\
  dash_tbl (Nat.iter 3 initDB (initDB_f (fails_at (BInsertAsset 2) AfterNextval) fresh_cluster))
    = Some seeded_dashboards /\
  asset_tbl (Nat.iter 3 initDB (initDB_f (fails_at (BInsertAsset 2) AfterNextval) fresh_cluster))
    = Some (firstn 2 seeded_assets).
Proof.
  split; [lia|].
  apply (initDB_partial_seed_permanent 2 3 AfterNextval). lia.
Defined.

Lemma initDB_recovers_early_failure_witness :
  In BInsertDash [BCreateTables; BCountDash; BInsertDash; BCountAssets; BInsertAsset 0] /\
  (asset_tbl (initDB_f (fails_at BInsertDash AfterNextval) fresh_cluster) = None \/
   asset_tbl (initDB_f (fails_at BInsertDash AfterNextval) fresh_cluster) = Some []) /\
  initDB (initDB_f (fails_at BInsertDash AfterNextval) fresh_cluster)
    = seeded_cluster_from 1 0 /\
  initDB fresh_cluster = seeded_cluster_from 0 0.
Proof.
  split; [simpl; tauto|].
  apply (initDB_recovers_early_failure BInsertDash AfterNextval). simpl. tauto.
Defined.

(** The seeded assets held in descending id order. *)
Definition reversed_db : DB := mkDB seeded_dashboards (rev seeded_assets).

Definition reversed_invest : option response * DB :=
  invest no_fault (JNum 2) (JNum 10) reversed_db.

Definition reversed_response : response :=
  match fst reversed_invest with
  | Some r => r
  | None => mkResponse 500 (BError msg_query_failed)
  end.

Lemma invest_then_get_assets_witness :
  (invest no_fault (JNum 2) (JNum 10) reversed_db
     = (Some reversed_response, snd reversed_invest) /\
   status reversed_response = 200%Z) /\
  exists id z rows,
    pg_int4 (JNum 2) = PInt id /\ pg_int4 (JNum 10) = PInt z /\
    get_assets None reversed_db = mkGetResponse 200 (GAssets rows) /\
    get_assets None (snd reversed_invest)
      = mkGetResponse 200 (GAssets (upd_asset_rows z id rows)) /\
    (NoDup (map a_id (assets reversed_db)) ->
     forall rows', Permutation rows' (assets (snd reversed_invest)) -> Sorted id_le rows' ->
       rows' = upd_asset_rows z id rows).
Proof.
  assert (H : invest no_fault (JNum 2) (JNum 10) reversed_db
              = (Some reversed_response, snd reversed_invest)) by (vm_compute; reflexivity).
  assert (Hs : status reversed_response = 200%Z) by (vm_compute; reflexivity).
  split; [split; [exact H|exact Hs]|].
  exact (invest_then_get_assets no_fault (JNum 2) (JNum 10) reversed_db _ _ H Hs).
Defined.
